(** * A shallow embedding of the umlaut daemon (src/service/umlaut_daemon.py)

    The daemon grabs the physical keyboards, runs a compose state machine on
    their key events and writes its output to one virtual keyboard.  This
    file embeds the parts of [UmlautConfig] and [UmlautDaemon] that decide
    the configuration, the state machine and the output synthesiser.

    Conventions of the embedding:
    - a Python [str] is a list of Unicode code points ([pystr]);
    - key codes, event types and values are [Z], with the evdev numbering;
    - time ([time.time()]) is a [Z] number of milliseconds passed in as
      [now]; [timeout_sec] is kept in the same unit;
    - a Python [dict] is an association list in insertion order;
    - a method of the daemon is a computation in a state and exception
      monad over the whole daemon object: mutations made before an
      exception is raised persist, as in Python. *)

From Stdlib Require Import ZArith List Bool String Ascii Lia.
Import ListNotations.
Open Scope Z_scope.
Set Warnings "-register-all".

(** ** Python strings *)

Definition pystr := list Z.

(** ASCII text literals. *)
Definition py (s : string) : pystr :=
  map (fun a => Z.of_nat (nat_of_ascii a)) (list_ascii_of_string s).

Fixpoint pystr_eqb (a b : pystr) : bool :=
  match a, b with
  | [], [] => true
  | x :: a', y :: b' => (x =? y) && pystr_eqb a' b'
  | _, _ => false
  end.

Fixpoint startswith (s p : pystr) : bool :=
  match p, s with
  | [], _ => true
  | c :: p', d :: s' => (c =? d) && startswith s' p'
  | _ :: _, [] => false
  end.

(** [p in s] for strings: substring test. *)
Fixpoint contains (s p : pystr) : bool :=
  startswith s p || match s with [] => false | _ :: s' => contains s' p end.

(** [c in s] for a single character [c]. *)
Definition mem (c : Z) (l : list Z) : bool := existsb (Z.eqb c) l.

(** Python's case and character tables for all of Unicode, as CPython 3.11
    has them (Unicode 14.0.0), checked code point by code point against
    [str.upper], [str.isupper], [str.isspace] and [unicodedata.decimal].
    A run [(lo, hi, step, delta)] covers the code points [lo], [lo + step],
    ... up to [hi]. *)

Definition in_run (lo hi step c : Z) : bool :=
  (lo <=? c) && (c <=? hi) && ((c - lo) mod step =? 0).

(** [chr(c).upper()] when it is one code point other than [c]: [c + delta]. *)
Definition UPPER_RUNS : list (Z * Z * Z * Z) :=
  [(97, 122, 1, -32); (181, 181, 1, 743); (224, 246, 1, -32); (248, 254, 1, -32);
   (255, 255, 1, 121); (257, 303, 2, -1); (305, 305, 1, -232); (307, 311, 2, -1);
   (314, 328, 2, -1); (331, 375, 2, -1); (378, 382, 2, -1); (383, 383, 1, -300);
   (384, 384, 1, 195); (387, 389, 2, -1); (392, 392, 1, -1); (396, 396, 1, -1);
   (402, 402, 1, -1); (405, 405, 1, 97); (409, 409, 1, -1); (410, 410, 1, 163);
   (414, 414, 1, 130); (417, 421, 2, -1); (424, 424, 1, -1); (429, 429, 1, -1);
   (432, 432, 1, -1); (436, 438, 2, -1); (441, 441, 1, -1); (445, 445, 1, -1);
   (447, 447, 1, 56); (453, 453, 1, -1); (454, 454, 1, -2); (456, 456, 1, -1);
   (457, 457, 1, -2); (459, 459, 1, -1); (460, 460, 1, -2); (462, 476, 2, -1);
   (477, 477, 1, -79); (479, 495, 2, -1); (498, 498, 1, -1); (499, 499, 1, -2);
   (501, 501, 1, -1); (505, 543, 2, -1); (547, 563, 2, -1); (572, 572, 1, -1);
   (575, 576, 1, 10815); (578, 578, 1, -1); (583, 591, 2, -1); (592, 592, 1, 10783);
   (593, 593, 1, 10780); (594, 594, 1, 10782); (595, 595, 1, -210); (596, 596, 1, -206);
   (598, 599, 1, -205); (601, 601, 1, -202); (603, 603, 1, -203); (604, 604, 1, 42319);
   (608, 608, 1, -205); (609, 609, 1, 42315); (611, 611, 1, -207); (613, 613, 1, 42280);
   (614, 614, 1, 42308); (616, 616, 1, -209); (617, 617, 1, -211); (618, 618, 1, 42308);
   (619, 619, 1, 10743); (620, 620, 1, 42305); (623, 623, 1, -211); (625, 625, 1, 10749);
   (626, 626, 1, -213); (629, 629, 1, -214); (637, 637, 1, 10727); (640, 640, 1, -218);
   (642, 642, 1, 42307); (643, 643, 1, -218); (647, 647, 1, 42282); (648, 648, 1, -218);
   (649, 649, 1, -69); (650, 651, 1, -217); (652, 652, 1, -71); (658, 658, 1, -219);
   (669, 669, 1, 42261); (670, 670, 1, 42258); (837, 837, 1, 84); (881, 883, 2, -1);
   (887, 887, 1, -1); (891, 893, 1, 130); (940, 940, 1, -38); (941, 943, 1, -37);
   (945, 961, 1, -32); (962, 962, 1, -31); (963, 971, 1, -32); (972, 972, 1, -64);
   (973, 974, 1, -63); (976, 976, 1, -62); (977, 977, 1, -57); (981, 981, 1, -47);
   (982, 982, 1, -54); (983, 983, 1, -8); (985, 1007, 2, -1); (1008, 1008, 1, -86);
   (1009, 1009, 1, -80); (1010, 1010, 1, 7); (1011, 1011, 1, -116); (1013, 1013, 1, -96);
   (1016, 1016, 1, -1); (1019, 1019, 1, -1); (1072, 1103, 1, -32); (1104, 1119, 1, -80);
   (1121, 1153, 2, -1); (1163, 1215, 2, -1); (1218, 1230, 2, -1); (1231, 1231, 1, -15);
   (1233, 1327, 2, -1); (1377, 1414, 1, -48); (4304, 4346, 1, 3008); (4349, 4351, 1, 3008);
   (5112, 5117, 1, -8); (7296, 7296, 1, -6254); (7297, 7297, 1, -6253); (7298, 7298, 1, -6244);
   (7299, 7300, 1, -6242); (7301, 7301, 1, -6243); (7302, 7302, 1, -6236); (7303, 7303, 1, -6181);
   (7304, 7304, 1, 35266); (7545, 7545, 1, 35332); (7549, 7549, 1, 3814); (7566, 7566, 1, 35384);
   (7681, 7829, 2, -1); (7835, 7835, 1, -59); (7841, 7935, 2, -1); (7936, 7943, 1, 8);
   (7952, 7957, 1, 8); (7968, 7975, 1, 8); (7984, 7991, 1, 8); (8000, 8005, 1, 8);
   (8017, 8023, 2, 8); (8032, 8039, 1, 8); (8048, 8049, 1, 74); (8050, 8053, 1, 86);
   (8054, 8055, 1, 100); (8056, 8057, 1, 128); (8058, 8059, 1, 112); (8060, 8061, 1, 126);
   (8112, 8113, 1, 8); (8126, 8126, 1, -7205); (8144, 8145, 1, 8); (8160, 8161, 1, 8);
   (8165, 8165, 1, 7); (8526, 8526, 1, -28); (8560, 8575, 1, -16); (8580, 8580, 1, -1);
   (9424, 9449, 1, -26); (11312, 11359, 1, -48); (11361, 11361, 1, -1); (11365, 11365, 1, -10795);
   (11366, 11366, 1, -10792); (11368, 11372, 2, -1); (11379, 11379, 1, -1); (11382, 11382, 1, -1);
   (11393, 11491, 2, -1); (11500, 11502, 2, -1); (11507, 11507, 1, -1); (11520, 11557, 1, -7264);
   (11559, 11559, 1, -7264); (11565, 11565, 1, -7264); (42561, 42605, 2, -1); (42625, 42651, 2, -1);
   (42787, 42799, 2, -1); (42803, 42863, 2, -1); (42874, 42876, 2, -1); (42879, 42887, 2, -1);
   (42892, 42892, 1, -1); (42897, 42899, 2, -1); (42900, 42900, 1, 48); (42903, 42921, 2, -1);
   (42933, 42947, 2, -1); (42952, 42954, 2, -1); (42961, 42961, 1, -1); (42967, 42969, 2, -1);
   (42998, 42998, 1, -1); (43859, 43859, 1, -928); (43888, 43967, 1, -38864); (65345, 65370, 1, -32);
   (66600, 66639, 1, -40); (66776, 66811, 1, -40); (66967, 66977, 1, -39); (66979, 66993, 1, -39);
   (66995, 67001, 1, -39); (67003, 67004, 1, -39); (68800, 68850, 1, -64); (71872, 71903, 1, -32);
   (93792, 93823, 1, -32); (125218, 125251, 1, -34)].

(** [chr(c).upper()] when it has several code points. *)
Definition UPPER_SPECIAL : list (Z * list Z) :=
  [(223, [83; 83]); (329, [700; 78]); (496, [74; 780]); (912, [921; 776; 769]);
   (944, [933; 776; 769]); (1415, [1333; 1362]); (7830, [72; 817]); (7831, [84; 776]);
   (7832, [87; 778]); (7833, [89; 778]); (7834, [65; 702]); (8016, [933; 787]);
   (8018, [933; 787; 768]); (8020, [933; 787; 769]); (8022, [933; 787; 834]); (8064, [7944; 921]);
   (8065, [7945; 921]); (8066, [7946; 921]); (8067, [7947; 921]); (8068, [7948; 921]);
   (8069, [7949; 921]); (8070, [7950; 921]); (8071, [7951; 921]); (8072, [7944; 921]);
   (8073, [7945; 921]); (8074, [7946; 921]); (8075, [7947; 921]); (8076, [7948; 921]);
   (8077, [7949; 921]); (8078, [7950; 921]); (8079, [7951; 921]); (8080, [7976; 921]);
   (8081, [7977; 921]); (8082, [7978; 921]); (8083, [7979; 921]); (8084, [7980; 921]);
   (8085, [7981; 921]); (8086, [7982; 921]); (8087, [7983; 921]); (8088, [7976; 921]);
   (8089, [7977; 921]); (8090, [7978; 921]); (8091, [7979; 921]); (8092, [7980; 921]);
   (8093, [7981; 921]); (8094, [7982; 921]); (8095, [7983; 921]); (8096, [8040; 921]);
   (8097, [8041; 921]); (8098, [8042; 921]); (8099, [8043; 921]); (8100, [8044; 921]);
   (8101, [8045; 921]); (8102, [8046; 921]); (8103, [8047; 921]); (8104, [8040; 921]);
   (8105, [8041; 921]); (8106, [8042; 921]); (8107, [8043; 921]); (8108, [8044; 921]);
   (8109, [8045; 921]); (8110, [8046; 921]); (8111, [8047; 921]); (8114, [8122; 921]);
   (8115, [913; 921]); (8116, [902; 921]); (8118, [913; 834]); (8119, [913; 834; 921]);
   (8124, [913; 921]); (8130, [8138; 921]); (8131, [919; 921]); (8132, [905; 921]);
   (8134, [919; 834]); (8135, [919; 834; 921]); (8140, [919; 921]); (8146, [921; 776; 768]);
   (8147, [921; 776; 769]); (8150, [921; 834]); (8151, [921; 776; 834]); (8162, [933; 776; 768]);
   (8163, [933; 776; 769]); (8164, [929; 787]); (8166, [933; 834]); (8167, [933; 776; 834]);
   (8178, [8186; 921]); (8179, [937; 921]); (8180, [911; 921]); (8182, [937; 834]);
   (8183, [937; 834; 921]); (8188, [937; 921]); (64256, [70; 70]); (64257, [70; 73]);
   (64258, [70; 76]); (64259, [70; 70; 73]); (64260, [70; 70; 76]); (64261, [83; 84]);
   (64262, [83; 84]); (64275, [1348; 1350]); (64276, [1348; 1333]); (64277, [1348; 1339]);
   (64278, [1358; 1350]); (64279, [1348; 1341])].

(** The code points [c] with [chr(c).isupper()]. *)
Definition ISUPPER_RUNS : list (Z * Z * Z) :=
  [(65, 90, 1); (192, 214, 1); (216, 222, 1); (256, 310, 2); (313, 327, 2);
   (330, 376, 2); (377, 381, 2); (385, 386, 1); (388, 390, 2); (391, 393, 2);
   (394, 395, 1); (398, 401, 1); (403, 404, 1); (406, 408, 1); (412, 413, 1);
   (415, 416, 1); (418, 422, 2); (423, 425, 2); (428, 430, 2); (431, 433, 2);
   (434, 435, 1); (437, 439, 2); (440, 440, 1); (444, 444, 1); (452, 452, 1);
   (455, 455, 1); (458, 458, 1); (461, 475, 2); (478, 494, 2); (497, 497, 1);
   (500, 502, 2); (503, 504, 1); (506, 562, 2); (570, 571, 1); (573, 574, 1);
   (577, 579, 2); (580, 582, 1); (584, 590, 2); (880, 882, 2); (886, 886, 1);
   (895, 895, 1); (902, 904, 2); (905, 906, 1); (908, 910, 2); (911, 913, 2);
   (914, 929, 1); (931, 939, 1); (975, 975, 1); (978, 980, 1); (984, 1006, 2);
   (1012, 1012, 1); (1015, 1017, 2); (1018, 1018, 1); (1021, 1071, 1); (1120, 1152, 2);
   (1162, 1216, 2); (1217, 1229, 2); (1232, 1326, 2); (1329, 1366, 1); (4256, 4293, 1);
   (4295, 4295, 1); (4301, 4301, 1); (5024, 5109, 1); (7312, 7354, 1); (7357, 7359, 1);
   (7680, 7828, 2); (7838, 7934, 2); (7944, 7951, 1); (7960, 7965, 1); (7976, 7983, 1);
   (7992, 7999, 1); (8008, 8013, 1); (8025, 8031, 2); (8040, 8047, 1); (8120, 8123, 1);
   (8136, 8139, 1); (8152, 8155, 1); (8168, 8172, 1); (8184, 8187, 1); (8450, 8450, 1);
   (8455, 8455, 1); (8459, 8461, 1); (8464, 8466, 1); (8469, 8469, 1); (8473, 8477, 1);
   (8484, 8490, 2); (8491, 8493, 1); (8496, 8499, 1); (8510, 8511, 1); (8517, 8517, 1);
   (8544, 8559, 1); (8579, 8579, 1); (9398, 9423, 1); (11264, 11311, 1); (11360, 11362, 2);
   (11363, 11364, 1); (11367, 11373, 2); (11374, 11376, 1); (11378, 11378, 1); (11381, 11381, 1);
   (11390, 11392, 1); (11394, 11490, 2); (11499, 11501, 2); (11506, 11506, 1); (42560, 42604, 2);
   (42624, 42650, 2); (42786, 42798, 2); (42802, 42862, 2); (42873, 42877, 2); (42878, 42886, 2);
   (42891, 42893, 2); (42896, 42898, 2); (42902, 42922, 2); (42923, 42926, 1); (42928, 42932, 1);
   (42934, 42948, 2); (42949, 42951, 1); (42953, 42953, 1); (42960, 42960, 1); (42966, 42968, 2);
   (42997, 42997, 1); (65313, 65338, 1); (66560, 66599, 1); (66736, 66771, 1); (66928, 66938, 1);
   (66940, 66954, 1); (66956, 66962, 1); (66964, 66965, 1); (68736, 68786, 1); (71840, 71871, 1);
   (93760, 93791, 1); (119808, 119833, 1); (119860, 119885, 1); (119912, 119937, 1); (119964, 119966, 2);
   (119967, 119967, 1); (119970, 119970, 1); (119973, 119974, 1); (119977, 119980, 1); (119982, 119989, 1);
   (120016, 120041, 1); (120068, 120069, 1); (120071, 120074, 1); (120077, 120084, 1); (120086, 120092, 1);
   (120120, 120121, 1); (120123, 120126, 1); (120128, 120132, 1); (120134, 120134, 1); (120138, 120144, 1);
   (120172, 120197, 1); (120224, 120249, 1); (120276, 120301, 1); (120328, 120353, 1); (120380, 120405, 1);
   (120432, 120457, 1); (120488, 120512, 1); (120546, 120570, 1); (120604, 120628, 1); (120662, 120686, 1);
   (120720, 120744, 1); (120778, 120778, 1); (125184, 125217, 1); (127280, 127305, 1); (127312, 127337, 1);
   (127344, 127369, 1)].

(** The code points [c] with [chr(c).isspace()]. *)
Definition SPACE_CHARS : list Z :=
  [9; 10; 11; 12; 13; 28; 29; 30; 31; 32; 133; 160; 5760; 8192; 8193; 8194; 8195; 8196; 8197; 8198; 8199; 8200; 8201; 8202; 8232; 8233; 8239; 8287; 12288].

(** The digits zero of the blocks of decimal digits [0]..[9]. *)
Definition DECIMAL_ZEROS : list Z :=
  [48; 1632; 1776; 1984; 2406; 2534; 2662; 2790; 2918; 3046; 3174; 3302;
   3430; 3558; 3664; 3792; 3872; 4160; 4240; 6112; 6160; 6470; 6608; 6784;
   6800; 6992; 7088; 7232; 7248; 42528; 43216; 43264; 43472; 43504; 43600; 44016;
   65296; 66720; 68912; 69734; 69872; 69942; 70096; 70384; 70736; 70864; 71248; 71360;
   71472; 71904; 72016; 72784; 73040; 73120; 92768; 92864; 93008; 120782; 120792; 120802;
   120812; 120822; 123200; 123632; 125264; 130032].

Fixpoint run_delta (runs : list (Z * Z * Z * Z)) (c : Z) : option Z :=
  match runs with
  | [] => None
  | (lo, hi, step, delta) :: runs' => if in_run lo hi step c then Some delta else run_delta runs' c
  end.

Fixpoint special_upper (l : list (Z * list Z)) (c : Z) : option (list Z) :=
  match l with
  | [] => None
  | (k, u) :: l' => if k =? c then Some u else special_upper l' c
  end.

(** [chr(c).upper()]; [str.upper] maps every code point on its own. *)
Definition py_upper_cp (c : Z) : pystr :=
  match special_upper UPPER_SPECIAL c with
  | Some u => u
  | None => match run_delta UPPER_RUNS c with Some delta => [c + delta] | None => [c] end
  end.

Definition py_upper (s : pystr) : pystr := flat_map py_upper_cp s.

(** [chr(c).isupper()]. *)
Definition py_isupper (c : Z) : bool :=
  existsb (fun '(lo, hi, step) => in_run lo hi step c) ISUPPER_RUNS.

Definition py_isspace (c : Z) : bool := mem c SPACE_CHARS.

(** [unicodedata.decimal(chr(c))]: the value of a decimal digit. *)
Definition decimal_value (c : Z) : option Z :=
  match find (fun z => (z <=? c) && (c <=? z + 9)) DECIMAL_ZEROS with
  | Some z => Some (c - z)
  | None => None
  end.

Fixpoint lstrip (s : pystr) : pystr :=
  match s with
  | c :: s' => if py_isspace c then lstrip s' else s
  | [] => []
  end.

Definition py_strip (s : pystr) : pystr := rev (lstrip (rev (lstrip s))).

(** [s.split('+')]. *)
Fixpoint split_on (sep : Z) (s : pystr) : list pystr :=
  match s with
  | [] => [[]]
  | c :: s' =>
      let parts := split_on sep s' in
      if c =? sep then [] :: parts
      else match parts with
           | p :: ps => (c :: p) :: ps
           | [] => [[c]]
           end
  end.

(** ** Python dicts as association lists in insertion order *)

Section Dict.
Context {K V : Type} (eqb : K -> K -> bool).

Fixpoint dict_get (d : list (K * V)) (k : K) : option V :=
    match d with
    | [] => None
    | (k', v) :: d' => if eqb k k' then Some v else dict_get d' k
    end.

(** [d[k] = v]: an existing key keeps its position. *)
Fixpoint dict_set (d : list (K * V)) (k : K) (v : V) : list (K * V) :=
    match d with
    | [] => [(k, v)]
    | (k', v') :: d' => if eqb k k' then (k', v) :: d' else (k', v') :: dict_set d' k v
    end.
End Dict.

(** ** evdev codes (linux/input-event-codes.h) *)

Module E.
Definition EV_SYN := 0.
Definition EV_KEY := 1.
Definition EV_REL := 2.
Definition EV_ABS := 3.
Definition KEY_ESC := 1.
Definition KEY_1 := 2.
Definition KEY_2 := 3.
Definition KEY_3 := 4.
Definition KEY_4 := 5.
Definition KEY_5 := 6.
Definition KEY_6 := 7.
Definition KEY_7 := 8.
Definition KEY_8 := 9.
Definition KEY_9 := 10.
Definition KEY_0 := 11.
Definition KEY_MINUS := 12.
Definition KEY_EQUAL := 13.
Definition KEY_BACKSPACE := 14.
Definition KEY_TAB := 15.
Definition KEY_Q := 16.
Definition KEY_W := 17.
Definition KEY_E := 18.
Definition KEY_R := 19.
Definition KEY_T := 20.
Definition KEY_Y := 21.
Definition KEY_U := 22.
Definition KEY_I := 23.
Definition KEY_O := 24.
Definition KEY_P := 25.
Definition KEY_LEFTBRACE := 26.
Definition KEY_RIGHTBRACE := 27.
Definition KEY_ENTER := 28.
Definition KEY_LEFTCTRL := 29.
Definition KEY_A := 30.
Definition KEY_S := 31.
Definition KEY_D := 32.
Definition KEY_F := 33.
Definition KEY_G := 34.
Definition KEY_H := 35.
Definition KEY_J := 36.
Definition KEY_K := 37.
Definition KEY_L := 38.
Definition KEY_SEMICOLON := 39.
Definition KEY_APOSTROPHE := 40.
Definition KEY_GRAVE := 41.
Definition KEY_LEFTSHIFT := 42.
Definition KEY_BACKSLASH := 43.
Definition KEY_Z := 44.
Definition KEY_X := 45.
Definition KEY_C := 46.
Definition KEY_V := 47.
Definition KEY_B := 48.
Definition KEY_N := 49.
Definition KEY_M := 50.
Definition KEY_COMMA := 51.
Definition KEY_DOT := 52.
Definition KEY_SLASH := 53.
Definition KEY_RIGHTSHIFT := 54.
Definition KEY_LEFTALT := 56.
Definition KEY_SPACE := 57.
Definition KEY_CAPSLOCK := 58.
Definition KEY_RIGHTCTRL := 97.
Definition KEY_RIGHTALT := 100.
Definition KEY_LEFTMETA := 125.
Definition KEY_RIGHTMETA := 126.
Definition ABS_X := 0.
Definition ABS_Y := 1.
Definition ABS_MT_POSITION_X := 53.
Definition BTN_MOUSE := 272.
Definition BTN_LEFT := 272.
Definition BTN_RIGHT := 273.
Definition BTN_MIDDLE := 274.
Definition BTN_GAMEPAD := 304.
Definition BTN_SOUTH := 304.
Definition BTN_A := 304.
Definition BTN_EAST := 305.
Definition BTN_B := 305.
Definition BTN_NORTH := 307.
Definition BTN_X := 307.
Definition BTN_WEST := 308.
Definition BTN_Y := 308.

Local Open Scope string_scope.

(** The [KEY_] attributes of [evdev.ecodes]: every [KEY_] macro of
    linux/input-event-codes.h, aliases included, in header order. *)
Definition key_names : list (string * Z) :=
    [("KEY_RESERVED", 0); ("KEY_ESC", 1); ("KEY_1", 2); ("KEY_2", 3); ("KEY_3", 4);
     ("KEY_4", 5); ("KEY_5", 6); ("KEY_6", 7); ("KEY_7", 8); ("KEY_8", 9); ("KEY_9", 10);
     ("KEY_0", 11); ("KEY_MINUS", 12); ("KEY_EQUAL", 13); ("KEY_BACKSPACE", 14);
     ("KEY_TAB", 15); ("KEY_Q", 16); ("KEY_W", 17); ("KEY_E", 18); ("KEY_R", 19);
     ("KEY_T", 20); ("KEY_Y", 21); ("KEY_U", 22); ("KEY_I", 23); ("KEY_O", 24); ("KEY_P", 25);
     ("KEY_LEFTBRACE", 26); ("KEY_RIGHTBRACE", 27); ("KEY_ENTER", 28); ("KEY_LEFTCTRL", 29);
     ("KEY_A", 30); ("KEY_S", 31); ("KEY_D", 32); ("KEY_F", 33); ("KEY_G", 34); ("KEY_H", 35);
     ("KEY_J", 36); ("KEY_K", 37); ("KEY_L", 38); ("KEY_SEMICOLON", 39);
     ("KEY_APOSTROPHE", 40); ("KEY_GRAVE", 41); ("KEY_LEFTSHIFT", 42); ("KEY_BACKSLASH", 43);
     ("KEY_Z", 44); ("KEY_X", 45); ("KEY_C", 46); ("KEY_V", 47); ("KEY_B", 48); ("KEY_N", 49);
     ("KEY_M", 50); ("KEY_COMMA", 51); ("KEY_DOT", 52); ("KEY_SLASH", 53);
     ("KEY_RIGHTSHIFT", 54); ("KEY_KPASTERISK", 55); ("KEY_LEFTALT", 56); ("KEY_SPACE", 57);
     ("KEY_CAPSLOCK", 58); ("KEY_F1", 59); ("KEY_F2", 60); ("KEY_F3", 61); ("KEY_F4", 62);
     ("KEY_F5", 63); ("KEY_F6", 64); ("KEY_F7", 65); ("KEY_F8", 66); ("KEY_F9", 67);
     ("KEY_F10", 68); ("KEY_NUMLOCK", 69); ("KEY_SCROLLLOCK", 70); ("KEY_KP7", 71);
     ("KEY_KP8", 72); ("KEY_KP9", 73); ("KEY_KPMINUS", 74); ("KEY_KP4", 75); ("KEY_KP5", 76);
     ("KEY_KP6", 77); ("KEY_KPPLUS", 78); ("KEY_KP1", 79); ("KEY_KP2", 80); ("KEY_KP3", 81);
     ("KEY_KP0", 82); ("KEY_KPDOT", 83); ("KEY_ZENKAKUHANKAKU", 85); ("KEY_102ND", 86);
     ("KEY_F11", 87); ("KEY_F12", 88); ("KEY_RO", 89); ("KEY_KATAKANA", 90);
     ("KEY_HIRAGANA", 91); ("KEY_HENKAN", 92); ("KEY_KATAKANAHIRAGANA", 93);
     ("KEY_MUHENKAN", 94); ("KEY_KPJPCOMMA", 95); ("KEY_KPENTER", 96); ("KEY_RIGHTCTRL", 97);
     ("KEY_KPSLASH", 98); ("KEY_SYSRQ", 99); ("KEY_RIGHTALT", 100); ("KEY_LINEFEED", 101);
     ("KEY_HOME", 102); ("KEY_UP", 103); ("KEY_PAGEUP", 104); ("KEY_LEFT", 105);
     ("KEY_RIGHT", 106); ("KEY_END", 107); ("KEY_DOWN", 108); ("KEY_PAGEDOWN", 109);
     ("KEY_INSERT", 110); ("KEY_DELETE", 111); ("KEY_MACRO", 112); ("KEY_MUTE", 113);
     ("KEY_VOLUMEDOWN", 114); ("KEY_VOLUMEUP", 115); ("KEY_POWER", 116); ("KEY_KPEQUAL", 117);
     ("KEY_KPPLUSMINUS", 118); ("KEY_PAUSE", 119); ("KEY_SCALE", 120); ("KEY_KPCOMMA", 121);
     ("KEY_HANGEUL", 122); ("KEY_HANGUEL", 122); ("KEY_HANJA", 123); ("KEY_YEN", 124);
     ("KEY_LEFTMETA", 125); ("KEY_RIGHTMETA", 126); ("KEY_COMPOSE", 127); ("KEY_STOP", 128);
     ("KEY_AGAIN", 129); ("KEY_PROPS", 130); ("KEY_UNDO", 131); ("KEY_FRONT", 132);
     ("KEY_COPY", 133); ("KEY_OPEN", 134); ("KEY_PASTE", 135); ("KEY_FIND", 136);
     ("KEY_CUT", 137); ("KEY_HELP", 138); ("KEY_MENU", 139); ("KEY_CALC", 140);
     ("KEY_SETUP", 141); ("KEY_SLEEP", 142); ("KEY_WAKEUP", 143); ("KEY_FILE", 144);
     ("KEY_SENDFILE", 145); ("KEY_DELETEFILE", 146); ("KEY_XFER", 147); ("KEY_PROG1", 148);
     ("KEY_PROG2", 149); ("KEY_WWW", 150); ("KEY_MSDOS", 151); ("KEY_COFFEE", 152);
     ("KEY_SCREENLOCK", 152); ("KEY_ROTATE_DISPLAY", 153); ("KEY_DIRECTION", 153);
     ("KEY_CYCLEWINDOWS", 154); ("KEY_MAIL", 155); ("KEY_BOOKMARKS", 156);
     ("KEY_COMPUTER", 157); ("KEY_BACK", 158); ("KEY_FORWARD", 159); ("KEY_CLOSECD", 160);
     ("KEY_EJECTCD", 161); ("KEY_EJECTCLOSECD", 162); ("KEY_NEXTSONG", 163);
     ("KEY_PLAYPAUSE", 164); ("KEY_PREVIOUSSONG", 165); ("KEY_STOPCD", 166);
     ("KEY_RECORD", 167); ("KEY_REWIND", 168); ("KEY_PHONE", 169); ("KEY_ISO", 170);
     ("KEY_CONFIG", 171); ("KEY_HOMEPAGE", 172); ("KEY_REFRESH", 173); ("KEY_EXIT", 174);
     ("KEY_MOVE", 175); ("KEY_EDIT", 176); ("KEY_SCROLLUP", 177); ("KEY_SCROLLDOWN", 178);
     ("KEY_KPLEFTPAREN", 179); ("KEY_KPRIGHTPAREN", 180); ("KEY_NEW", 181); ("KEY_REDO", 182);
     ("KEY_F13", 183); ("KEY_F14", 184); ("KEY_F15", 185); ("KEY_F16", 186); ("KEY_F17", 187);
     ("KEY_F18", 188); ("KEY_F19", 189); ("KEY_F20", 190); ("KEY_F21", 191); ("KEY_F22", 192);
     ("KEY_F23", 193); ("KEY_F24", 194); ("KEY_PLAYCD", 200); ("KEY_PAUSECD", 201);
     ("KEY_PROG3", 202); ("KEY_PROG4", 203); ("KEY_ALL_APPLICATIONS", 204);
     ("KEY_DASHBOARD", 204); ("KEY_SUSPEND", 205); ("KEY_CLOSE", 206); ("KEY_PLAY", 207);
     ("KEY_FASTFORWARD", 208); ("KEY_BASSBOOST", 209); ("KEY_PRINT", 210); ("KEY_HP", 211);
     ("KEY_CAMERA", 212); ("KEY_SOUND", 213); ("KEY_QUESTION", 214); ("KEY_EMAIL", 215);
     ("KEY_CHAT", 216); ("KEY_SEARCH", 217); ("KEY_CONNECT", 218); ("KEY_FINANCE", 219);
     ("KEY_SPORT", 220); ("KEY_SHOP", 221); ("KEY_ALTERASE", 222); ("KEY_CANCEL", 223);
     ("KEY_BRIGHTNESSDOWN", 224); ("KEY_BRIGHTNESSUP", 225); ("KEY_MEDIA", 226);
     ("KEY_SWITCHVIDEOMODE", 227); ("KEY_KBDILLUMTOGGLE", 228); ("KEY_KBDILLUMDOWN", 229);
     ("KEY_KBDILLUMUP", 230); ("KEY_SEND", 231); ("KEY_REPLY", 232); ("KEY_FORWARDMAIL", 233);
     ("KEY_SAVE", 234); ("KEY_DOCUMENTS", 235); ("KEY_BATTERY", 236); ("KEY_BLUETOOTH", 237);
     ("KEY_WLAN", 238); ("KEY_UWB", 239); ("KEY_UNKNOWN", 240); ("KEY_VIDEO_NEXT", 241);
     ("KEY_VIDEO_PREV", 242); ("KEY_BRIGHTNESS_CYCLE", 243); ("KEY_BRIGHTNESS_AUTO", 244);
     ("KEY_BRIGHTNESS_ZERO", 244); ("KEY_DISPLAY_OFF", 245); ("KEY_WWAN", 246);
     ("KEY_WIMAX", 246); ("KEY_RFKILL", 247); ("KEY_MICMUTE", 248); ("KEY_OK", 352);
     ("KEY_SELECT", 353); ("KEY_GOTO", 354); ("KEY_CLEAR", 355); ("KEY_POWER2", 356);
     ("KEY_OPTION", 357); ("KEY_INFO", 358); ("KEY_TIME", 359); ("KEY_VENDOR", 360);
     ("KEY_ARCHIVE", 361); ("KEY_PROGRAM", 362); ("KEY_CHANNEL", 363); ("KEY_FAVORITES", 364);
     ("KEY_EPG", 365); ("KEY_PVR", 366); ("KEY_MHP", 367); ("KEY_LANGUAGE", 368);
     ("KEY_TITLE", 369); ("KEY_SUBTITLE", 370); ("KEY_ANGLE", 371); ("KEY_FULL_SCREEN", 372);
     ("KEY_ZOOM", 372); ("KEY_MODE", 373); ("KEY_KEYBOARD", 374); ("KEY_ASPECT_RATIO", 375);
     ("KEY_SCREEN", 375); ("KEY_PC", 376); ("KEY_TV", 377); ("KEY_TV2", 378); ("KEY_VCR", 379);
     ("KEY_VCR2", 380); ("KEY_SAT", 381); ("KEY_SAT2", 382); ("KEY_CD", 383);
     ("KEY_TAPE", 384); ("KEY_RADIO", 385); ("KEY_TUNER", 386); ("KEY_PLAYER", 387);
     ("KEY_TEXT", 388); ("KEY_DVD", 389); ("KEY_AUX", 390); ("KEY_MP3", 391);
     ("KEY_AUDIO", 392); ("KEY_VIDEO", 393); ("KEY_DIRECTORY", 394); ("KEY_LIST", 395);
     ("KEY_MEMO", 396); ("KEY_CALENDAR", 397); ("KEY_RED", 398); ("KEY_GREEN", 399);
     ("KEY_YELLOW", 400); ("KEY_BLUE", 401); ("KEY_CHANNELUP", 402); ("KEY_CHANNELDOWN", 403);
     ("KEY_FIRST", 404); ("KEY_LAST", 405); ("KEY_AB", 406); ("KEY_NEXT", 407);
     ("KEY_RESTART", 408); ("KEY_SLOW", 409); ("KEY_SHUFFLE", 410); ("KEY_BREAK", 411);
     ("KEY_PREVIOUS", 412); ("KEY_DIGITS", 413); ("KEY_TEEN", 414); ("KEY_TWEN", 415);
     ("KEY_VIDEOPHONE", 416); ("KEY_GAMES", 417); ("KEY_ZOOMIN", 418); ("KEY_ZOOMOUT", 419);
     ("KEY_ZOOMRESET", 420); ("KEY_WORDPROCESSOR", 421); ("KEY_EDITOR", 422);
     ("KEY_SPREADSHEET", 423); ("KEY_GRAPHICSEDITOR", 424); ("KEY_PRESENTATION", 425);
     ("KEY_DATABASE", 426); ("KEY_NEWS", 427); ("KEY_VOICEMAIL", 428);
     ("KEY_ADDRESSBOOK", 429); ("KEY_MESSENGER", 430); ("KEY_DISPLAYTOGGLE", 431);
     ("KEY_BRIGHTNESS_TOGGLE", 431); ("KEY_SPELLCHECK", 432); ("KEY_LOGOFF", 433);
     ("KEY_DOLLAR", 434); ("KEY_EURO", 435); ("KEY_FRAMEBACK", 436); ("KEY_FRAMEFORWARD", 437);
     ("KEY_CONTEXT_MENU", 438); ("KEY_MEDIA_REPEAT", 439); ("KEY_10CHANNELSUP", 440);
     ("KEY_10CHANNELSDOWN", 441); ("KEY_IMAGES", 442); ("KEY_NOTIFICATION_CENTER", 444);
     ("KEY_PICKUP_PHONE", 445); ("KEY_HANGUP_PHONE", 446); ("KEY_LINK_PHONE", 447);
     ("KEY_DEL_EOL", 448); ("KEY_DEL_EOS", 449); ("KEY_INS_LINE", 450); ("KEY_DEL_LINE", 451);
     ("KEY_FN", 464); ("KEY_FN_ESC", 465); ("KEY_FN_F1", 466); ("KEY_FN_F2", 467);
     ("KEY_FN_F3", 468); ("KEY_FN_F4", 469); ("KEY_FN_F5", 470); ("KEY_FN_F6", 471);
     ("KEY_FN_F7", 472); ("KEY_FN_F8", 473); ("KEY_FN_F9", 474); ("KEY_FN_F10", 475);
     ("KEY_FN_F11", 476); ("KEY_FN_F12", 477); ("KEY_FN_1", 478); ("KEY_FN_2", 479);
     ("KEY_FN_D", 480); ("KEY_FN_E", 481); ("KEY_FN_F", 482); ("KEY_FN_S", 483);
     ("KEY_FN_B", 484); ("KEY_FN_RIGHT_SHIFT", 485); ("KEY_BRL_DOT1", 497);
     ("KEY_BRL_DOT2", 498); ("KEY_BRL_DOT3", 499); ("KEY_BRL_DOT4", 500);
     ("KEY_BRL_DOT5", 501); ("KEY_BRL_DOT6", 502); ("KEY_BRL_DOT7", 503);
     ("KEY_BRL_DOT8", 504); ("KEY_BRL_DOT9", 505); ("KEY_BRL_DOT10", 506);
     ("KEY_NUMERIC_0", 512); ("KEY_NUMERIC_1", 513); ("KEY_NUMERIC_2", 514);
     ("KEY_NUMERIC_3", 515); ("KEY_NUMERIC_4", 516); ("KEY_NUMERIC_5", 517);
     ("KEY_NUMERIC_6", 518); ("KEY_NUMERIC_7", 519); ("KEY_NUMERIC_8", 520);
     ("KEY_NUMERIC_9", 521); ("KEY_NUMERIC_STAR", 522); ("KEY_NUMERIC_POUND", 523);
     ("KEY_NUMERIC_A", 524); ("KEY_NUMERIC_B", 525); ("KEY_NUMERIC_C", 526);
     ("KEY_NUMERIC_D", 527); ("KEY_CAMERA_FOCUS", 528); ("KEY_WPS_BUTTON", 529);
     ("KEY_TOUCHPAD_TOGGLE", 530); ("KEY_TOUCHPAD_ON", 531); ("KEY_TOUCHPAD_OFF", 532);
     ("KEY_CAMERA_ZOOMIN", 533); ("KEY_CAMERA_ZOOMOUT", 534); ("KEY_CAMERA_UP", 535);
     ("KEY_CAMERA_DOWN", 536); ("KEY_CAMERA_LEFT", 537); ("KEY_CAMERA_RIGHT", 538);
     ("KEY_ATTENDANT_ON", 539); ("KEY_ATTENDANT_OFF", 540); ("KEY_ATTENDANT_TOGGLE", 541);
     ("KEY_LIGHTS_TOGGLE", 542); ("KEY_ALS_TOGGLE", 560); ("KEY_ROTATE_LOCK_TOGGLE", 561);
     ("KEY_REFRESH_RATE_TOGGLE", 562); ("KEY_BUTTONCONFIG", 576); ("KEY_TASKMANAGER", 577);
     ("KEY_JOURNAL", 578); ("KEY_CONTROLPANEL", 579); ("KEY_APPSELECT", 580);
     ("KEY_SCREENSAVER", 581); ("KEY_VOICECOMMAND", 582); ("KEY_ASSISTANT", 583);
     ("KEY_KBD_LAYOUT_NEXT", 584); ("KEY_EMOJI_PICKER", 585); ("KEY_DICTATE", 586);
     ("KEY_BRIGHTNESS_MIN", 592); ("KEY_BRIGHTNESS_MAX", 593);
     ("KEY_KBDINPUTASSIST_PREV", 608); ("KEY_KBDINPUTASSIST_NEXT", 609);
     ("KEY_KBDINPUTASSIST_PREVGROUP", 610); ("KEY_KBDINPUTASSIST_NEXTGROUP", 611);
     ("KEY_KBDINPUTASSIST_ACCEPT", 612); ("KEY_KBDINPUTASSIST_CANCEL", 613);
     ("KEY_RIGHT_UP", 614); ("KEY_RIGHT_DOWN", 615); ("KEY_LEFT_UP", 616);
     ("KEY_LEFT_DOWN", 617); ("KEY_ROOT_MENU", 618); ("KEY_MEDIA_TOP_MENU", 619);
     ("KEY_NUMERIC_11", 620); ("KEY_NUMERIC_12", 621); ("KEY_AUDIO_DESC", 622);
     ("KEY_3D_MODE", 623); ("KEY_NEXT_FAVORITE", 624); ("KEY_STOP_RECORD", 625);
     ("KEY_PAUSE_RECORD", 626); ("KEY_VOD", 627); ("KEY_UNMUTE", 628);
     ("KEY_FASTREVERSE", 629); ("KEY_SLOWREVERSE", 630); ("KEY_DATA", 631);
     ("KEY_ONSCREEN_KEYBOARD", 632); ("KEY_PRIVACY_SCREEN_TOGGLE", 633);
     ("KEY_SELECTIVE_SCREENSHOT", 634); ("KEY_NEXT_ELEMENT", 635);
     ("KEY_PREVIOUS_ELEMENT", 636); ("KEY_AUTOPILOT_ENGAGE_TOGGLE", 637);
     ("KEY_MARK_WAYPOINT", 638); ("KEY_SOS", 639); ("KEY_NAV_CHART", 640);
     ("KEY_FISHING_CHART", 641); ("KEY_SINGLE_RANGE_RADAR", 642);
     ("KEY_DUAL_RANGE_RADAR", 643); ("KEY_RADAR_OVERLAY", 644); ("KEY_TRADITIONAL_SONAR", 645);
     ("KEY_CLEARVU_SONAR", 646); ("KEY_SIDEVU_SONAR", 647); ("KEY_NAV_INFO", 648);
     ("KEY_BRIGHTNESS_MENU", 649); ("KEY_MACRO1", 656); ("KEY_MACRO2", 657);
     ("KEY_MACRO3", 658); ("KEY_MACRO4", 659); ("KEY_MACRO5", 660); ("KEY_MACRO6", 661);
     ("KEY_MACRO7", 662); ("KEY_MACRO8", 663); ("KEY_MACRO9", 664); ("KEY_MACRO10", 665);
     ("KEY_MACRO11", 666); ("KEY_MACRO12", 667); ("KEY_MACRO13", 668); ("KEY_MACRO14", 669);
     ("KEY_MACRO15", 670); ("KEY_MACRO16", 671); ("KEY_MACRO17", 672); ("KEY_MACRO18", 673);
     ("KEY_MACRO19", 674); ("KEY_MACRO20", 675); ("KEY_MACRO21", 676); ("KEY_MACRO22", 677);
     ("KEY_MACRO23", 678); ("KEY_MACRO24", 679); ("KEY_MACRO25", 680); ("KEY_MACRO26", 681);
     ("KEY_MACRO27", 682); ("KEY_MACRO28", 683); ("KEY_MACRO29", 684); ("KEY_MACRO30", 685);
     ("KEY_MACRO_RECORD_START", 688); ("KEY_MACRO_RECORD_STOP", 689);
     ("KEY_MACRO_PRESET_CYCLE", 690); ("KEY_MACRO_PRESET1", 691); ("KEY_MACRO_PRESET2", 692);
     ("KEY_MACRO_PRESET3", 693); ("KEY_KBD_LCD_MENU1", 696); ("KEY_KBD_LCD_MENU2", 697);
     ("KEY_KBD_LCD_MENU3", 698); ("KEY_KBD_LCD_MENU4", 699); ("KEY_KBD_LCD_MENU5", 700);
     ("KEY_MIN_INTERESTING", 113); ("KEY_MAX", 767); ("KEY_CNT", 768)].

(** [getattr(ecodes, name)] for a name that starts with [KEY_]. *)
Definition getattr (name : pystr) : option Z :=
    dict_get pystr_eqb (map (fun '(n, k) => (py n, k)) key_names) name.
End E.

(** ** JSON values as [json.load] returns them

    JSON numbers are modelled as integers; objects keep their keys in file
    order. *)

Inductive json :=
| JNull
| JBool (b : bool)
| JInt (n : Z)
| JStr (s : pystr)
| JArr (l : list json)
| JObj (kvs : list (pystr * json)).

Definition jget (kvs : list (pystr * json)) (k : pystr) : option json :=
  dict_get pystr_eqb kvs k.

(** Python truthiness of a JSON value. *)
Definition truthy (j : json) : bool :=
  match j with
  | JNull => false
  | JBool b => b
  | JInt n => negb (n =? 0)
  | JStr s => match s with [] => false | _ => true end
  | JArr l => match l with [] => false | _ => true end
  | JObj kvs => match kvs with [] => false | _ => true end
  end.

(** ** Exceptions, output actions, configuration and daemon state *)

Inductive exc := ValueError | TypeError | AttributeError | KeyError | IndexError | SystemExit
  | TimeoutExpired | CalledProcessError | FileNotFoundError | OSError.

(** [OutputAction]: [action_type] 'string', 'key' (with an int or a dict as
    data) and 'sequence'.  A 'string' action keeps its data as loaded: the
    ['string'] field of an output object may hold any JSON value. *)
Inductive action :=
| AString (data : json)
| AKey (k : Z)
| AKeyMods (k : Z) (modifiers : list Z)
| ASeq (actions : list action).

(** [KeySequence]. *)
Record keyseq := mkKeySeq {
  modifier_keys : list Z;
  compose_key : Z;
  ks_compose_shifted : bool;
  target_keys : list Z;
  output : action }.

(** A lookup tuple [(trigger, compose_shifted, compose, *targets)]. *)
Record lkey := mkLKey {
  lk_trigger : Z;
  lk_shifted : bool;
  lk_compose : Z;
  lk_targets : list Z }.

Definition lkey_eqb (a b : lkey) : bool :=
  (lk_trigger a =? lk_trigger b) && Bool.eqb (lk_shifted a) (lk_shifted b)
  && (lk_compose a =? lk_compose b) && pystr_eqb (lk_targets a) (lk_targets b).

(** The fields of [UmlautConfig]. *)
Record UmlautConfig := mkConfig {
  sequences : list (lkey * keyseq);
  trigger_keys_list : list Z;
  passthrough_keys : list Z;
  timeout_ms : Z;
  log_level : pystr }.

(** What the daemon writes: [uinput.write], [uinput.syn] and the [xdotool]
    invocations of [emit_unicode_char]. *)
Inductive out_ev :=
| OWrite (t c v : Z)
| OSyn
| OXdoKeydownShift
| OXdoType (c : Z)
| OXdoKeyupShift.

Inductive st := IDLE | TRIGGER_PRESSED | COMPOSE_PRESSED | WAITING_TARGET.

Definition st_eqb (a b : st) : bool :=
  match a, b with
  | IDLE, IDLE | TRIGGER_PRESSED, TRIGGER_PRESSED
  | COMPOSE_PRESSED, COMPOSE_PRESSED | WAITING_TARGET, WAITING_TARGET => true
  | _, _ => false
  end.

(** The state machine fields of [UmlautDaemon]. *)
Record machine := mkMachine {
  state : st;
  pressed_keys : list Z;
  current_trigger : option Z;
  current_compose : option Z;
  compose_shifted : bool;
  compose_start_time : Z;
  trigger_start_time : Z }.

(** How a [subprocess.run] of xdotool ends, as the system decides it. *)
Inductive xdo_outcome :=
| XOk         (* exit status 0 *)
| XTimeout    (* [TimeoutExpired] after the 1 s timeout *)
| XFailed     (* non-zero exit status: [CalledProcessError] ([check=True]) *)
| XNotFound   (* no xdotool binary: [FileNotFoundError] *)
| XOSError.   (* any other [OSError] of the spawn, e.g. [PermissionError] *)

(** [xdo_results] is not an attribute of [UmlautDaemon]: it holds the
    outcomes the system gives to the coming xdotool calls, in order; once
    it is used up, the calls succeed. *)
Record daemon := mkDaemon {
  config : UmlautConfig;
  valid_compose_keys : list Z;
  timeout_sec : Z;
  xdotool_available : bool;
  uinput : list out_ev;
  sm : machine;
  xdo_results : list xdo_outcome;
  inotify_fd : option Z }.

Definition set_config (c : UmlautConfig) (d : daemon) : daemon :=
  mkDaemon c (valid_compose_keys d) (timeout_sec d) (xdotool_available d) (uinput d) (sm d)
    (xdo_results d) (inotify_fd d).
Definition set_uinput (u : list out_ev) (d : daemon) : daemon :=
  mkDaemon (config d) (valid_compose_keys d) (timeout_sec d) (xdotool_available d) u (sm d)
    (xdo_results d) (inotify_fd d).
Definition set_sm (m : machine) (d : daemon) : daemon :=
  mkDaemon (config d) (valid_compose_keys d) (timeout_sec d) (xdotool_available d) (uinput d) m
    (xdo_results d) (inotify_fd d).
Definition set_xdotool_available (b : bool) (d : daemon) : daemon :=
  mkDaemon (config d) (valid_compose_keys d) (timeout_sec d) b (uinput d) (sm d)
    (xdo_results d) (inotify_fd d).
Definition set_xdo_results (r : list xdo_outcome) (d : daemon) : daemon :=
  mkDaemon (config d) (valid_compose_keys d) (timeout_sec d) (xdotool_available d) (uinput d) (sm d)
    r (inotify_fd d).
Definition set_inotify_fd (fd : option Z) (d : daemon) : daemon :=
  mkDaemon (config d) (valid_compose_keys d) (timeout_sec d) (xdotool_available d) (uinput d) (sm d)
    (xdo_results d) fd.

(** ** A state and exception monad over the daemon object *)

Definition M (A : Type) := daemon -> (exc + A) * daemon.

Definition ret {A} (a : A) : M A := fun d => (inr a, d).

Definition bind {A B} (m : M A) (k : A -> M B) : M B :=
  fun d => match m d with
           | (inr a, d') => k a d'
           | (inl e, d') => (inl e, d')
           end.

Definition raise {A} (e : exc) : M A := fun d => (inl e, d).

Definition get : M daemon := fun d => (inr d, d).

Definition modify (f : daemon -> daemon) : M unit := fun d => (inr tt, f d).

(** [try: m except <catches>: h]. *)
Definition try_except {A} (m : M A) (catches : exc -> bool) (h : exc -> M A) : M A :=
  fun d => match m d with
           | (inl e, d') => if catches e then h e d' else (inl e, d')
           | r => r
           end.

Notation "x <- m ;; k" := (bind m (fun x => k)) (at level 61, m at next level, right associativity).
Notation "m ;; k" := (bind m (fun _ => k)) (at level 61, right associativity).

Fixpoint mfor {X} (l : list X) (f : X -> M unit) : M unit :=
  match l with
  | [] => ret tt
  | x :: l' => f x ;; mfor l' f
  end.

Definition upd_config (f : UmlautConfig -> UmlautConfig) : M unit :=
  modify (fun d => set_config (f (config d)) d).
Definition upd_sm (f : machine -> machine) : M unit :=
  modify (fun d => set_sm (f (sm d)) d).

(** [self.uinput.write(t, c, v)] and [self.uinput.syn()]. *)
Definition write (t c v : Z) : M unit :=
  modify (fun d => set_uinput (uinput d ++ [OWrite t c v]) d).
Definition syn : M unit := modify (fun d => set_uinput (uinput d ++ [OSyn]) d).
Definition xdo (o : out_ev) : M unit := modify (fun d => set_uinput (uinput d ++ [o]) d).

(** [write(EV_KEY, self.current_x, v)]: [None] is refused by evdev with a
    [TypeError]. *)
Definition write_key (k : option Z) (v : Z) : M unit :=
  match k with
  | Some c => write E.EV_KEY c v
  | None => raise TypeError
  end.

(** ** Character tables of [UmlautConfig] (keyed by code point) *)

Definition CHAR_TO_KEY : list (Z * Z) :=
  [(97, E.KEY_A); (98, E.KEY_B); (99, E.KEY_C); (100, E.KEY_D); (101, E.KEY_E);
   (102, E.KEY_F); (103, E.KEY_G); (104, E.KEY_H); (105, E.KEY_I); (106, E.KEY_J);
   (107, E.KEY_K); (108, E.KEY_L); (109, E.KEY_M); (110, E.KEY_N); (111, E.KEY_O);
   (112, E.KEY_P); (113, E.KEY_Q); (114, E.KEY_R); (115, E.KEY_S); (116, E.KEY_T);
   (117, E.KEY_U); (118, E.KEY_V); (119, E.KEY_W); (120, E.KEY_X); (121, E.KEY_Y);
   (122, E.KEY_Z);
   (48, E.KEY_0); (49, E.KEY_1); (50, E.KEY_2); (51, E.KEY_3); (52, E.KEY_4);
   (53, E.KEY_5); (54, E.KEY_6); (55, E.KEY_7); (56, E.KEY_8); (57, E.KEY_9);
   (32, E.KEY_SPACE); (45, E.KEY_MINUS); (61, E.KEY_EQUAL);
   (91, E.KEY_LEFTBRACE); (93, E.KEY_RIGHTBRACE); (92, E.KEY_BACKSLASH);
   (59, E.KEY_SEMICOLON); (39, E.KEY_APOSTROPHE); (96, E.KEY_GRAVE);
   (44, E.KEY_COMMA); (46, E.KEY_DOT); (47, E.KEY_SLASH)].

(** [SHIFTED_CHARS]: shifted character to its base character (the flag is
    [True] for every entry). *)
Definition SHIFTED_CHARS : list (Z * Z) :=
  map (fun c => (c, c + 32)) (map Z.of_nat (seq 65 26)) ++
  [(33, 49); (64, 50); (35, 51); (36, 52); (37, 53); (94, 54); (38, 55); (42, 56);
   (40, 57); (41, 48); (95, 45); (43, 61); (123, 91); (125, 93); (124, 92);
   (58, 59); (34, 39); (126, 96); (60, 44); (62, 46); (63, 47)].

Definition is_some {X} (o : option X) : bool := match o with Some _ => true | None => false end.

Definition zget (d : list (Z * Z)) (k : Z) : option Z := dict_get Z.eqb d k.

(** ** Output synthesiser *)

Definition is_empty {X} (l : list X) : bool := match l with [] => true | _ => false end.

Definition is_shift (k : Z) : bool := mem k [E.KEY_LEFTSHIFT; E.KEY_RIGHTSHIFT].

(** [emit_key]. *)
Definition emit_key (key_code value : Z) (modifiers : list Z) : M unit :=
  (if negb (is_empty modifiers) then mfor modifiers (fun m => write E.EV_KEY m 1 ;; syn)
   else ret tt) ;;
  write E.EV_KEY key_code value ;; syn ;;
  (if negb (is_empty modifiers) && (value =? 0)
   then mfor modifiers (fun m => write E.EV_KEY m 0 ;; syn)
   else ret tt).

(** [subprocess.run(['xdotool', ...], check=True, ...)] with the effect
    [o]: an argument holding a NUL character is refused with [ValueError]
    before any process starts; otherwise the call takes the next outcome
    of [xdo_results]; only a call that succeeds has its effect. *)
Definition xdo_call (o : out_ev) : M unit :=
  if match o with OXdoType c => c =? 0 | _ => false end then raise ValueError
  else
    d <- get ;;
    let '(r, rest) := match xdo_results d with [] => (XOk, []) | r :: rest => (r, rest) end in
    modify (set_xdo_results rest) ;;
    match r with
    | XOk => xdo o
    | XTimeout => raise TimeoutExpired
    | XFailed => raise CalledProcessError
    | XNotFound => raise FileNotFoundError
    | XOSError => raise OSError
    end.

(** The [except] clauses of [emit_unicode_char]. *)
Definition is_xdo_caught (e : exc) : bool :=
  match e with TimeoutExpired | CalledProcessError | FileNotFoundError => true | _ => false end.

(** [emit_unicode_char], for the one character [c] (the length check never
    fails on a character of a string); the two assignments after the
    [try] statement reset the inotify watch. *)
Definition emit_unicode_char (c : Z) : M unit :=
  d <- get ;;
  if negb (xdotool_available d) then ret tt
  else
    try_except
      (if py_isupper c then
         xdo_call OXdoKeydownShift ;; xdo_call (OXdoType c) ;; xdo_call OXdoKeyupShift
       else xdo_call (OXdoType c))
      is_xdo_caught
      (fun e => match e with
                | FileNotFoundError => modify (set_xdotool_available false)
                | _ => ret tt
                end) ;;
    modify (set_inotify_fd None).

(** One iteration of the loop of [emit_string]. *)
Definition emit_char (c : Z) : M unit :=
  if (c <=? 127) && (is_some (zget CHAR_TO_KEY c) || is_some (zget SHIFTED_CHARS c)) then
    let '(base_char, needs_shift) :=
      match zget SHIFTED_CHARS c with Some b => (b, true) | None => (c, false) end in
    match zget CHAR_TO_KEY base_char with
    | Some key_code =>
        (if needs_shift then write E.EV_KEY E.KEY_LEFTSHIFT 1 ;; syn else ret tt) ;;
        write E.EV_KEY key_code 1 ;; syn ;;
        write E.EV_KEY key_code 0 ;; syn ;;
        (if needs_shift then write E.EV_KEY E.KEY_LEFTSHIFT 0 ;; syn else ret tt)
    | None => ret tt
    end
  else emit_unicode_char c.

Definition emit_string (text : pystr) : M unit := mfor text emit_char.

(** [emit_string] applied to the data of a 'string' action that is not a
    [str]: [for char in data] followed by [ord(char)], which raises a
    [TypeError] on anything but a one-character string. *)
Definition one_char (j : json) : M unit :=
  match j with
  | JStr [c] => emit_char c
  | _ => raise TypeError
  end.

Definition emit_string_data (data : json) : M unit :=
  match data with
  | JStr s => emit_string s
  | JArr l => mfor l one_char
  | JObj kvs => mfor (map (fun kv => JStr (fst kv)) kvs) one_char
  | _ => raise TypeError
  end.

(** [emit_output]. *)
Fixpoint emit_output (a : action) (target_was_shifted : bool) : M unit :=
  match a with
  | AString data =>
      if target_was_shifted then
        match data with
        | JStr s => emit_string (py_upper s)
        | _ => raise AttributeError
        end
      else emit_string_data data
  | AKeyMods key_code modifiers =>
      let modifiers :=
        if target_was_shifted && negb (existsb is_shift modifiers)
        then modifiers ++ [E.KEY_LEFTSHIFT] else modifiers in
      emit_key key_code 1 modifiers ;; emit_key key_code 0 modifiers
  | AKey key_code =>
      let modifiers := if target_was_shifted then [E.KEY_LEFTSHIFT] else [] in
      emit_key key_code 1 modifiers ;; emit_key key_code 0 modifiers
  | ASeq actions =>
      (fix go (l : list action) (first : bool) : M unit :=
         match l with
         | [] => ret tt
         | x :: l' => emit_output x (if first then target_was_shifted else false) ;; go l' false
         end) actions true
  end.

(** ** Compose state machine *)

Definition cancel_compose : M unit :=
  upd_sm (fun m => mkMachine IDLE (pressed_keys m) None None false 0 0).

(** [if self.current_x: write(EV_KEY, self.current_x, 0)]: key code 0 is
    falsy in Python. *)
Definition release_if_set (k : option Z) : M unit :=
  match k with
  | Some c => if c =? 0 then ret tt else write E.EV_KEY c 0 ;; syn
  | None => ret tt
  end.

Definition force_release_all : M unit :=
  d <- get ;;
  release_if_set (current_trigger (sm d)) ;;
  release_if_set (current_compose (sm d)) ;;
  write E.EV_KEY E.KEY_LEFTSHIFT 0 ;; syn ;;
  write E.EV_KEY E.KEY_RIGHTSHIFT 0 ;; syn ;;
  cancel_compose.

(** Trigger press+release, then compose press+release wrapped in Shift if
    [compose_shifted]: the replay of [check_timeout] and [handle_event]. *)
Definition replay_trigger_compose (m : machine) : M unit :=
  write_key (current_trigger m) 1 ;; syn ;;
  write_key (current_trigger m) 0 ;; syn ;;
  (if compose_shifted m then write E.EV_KEY E.KEY_LEFTSHIFT 1 ;; syn else ret tt) ;;
  write_key (current_compose m) 1 ;; syn ;;
  write_key (current_compose m) 0 ;; syn ;;
  (if compose_shifted m then write E.EV_KEY E.KEY_LEFTSHIFT 0 ;; syn else ret tt).

Definition check_timeout (now : Z) : M unit :=
  d <- get ;;
  let m := sm d in
  match state m with
  | TRIGGER_PRESSED =>
      if timeout_sec d <=? now - trigger_start_time m then
        write_key (current_trigger m) 1 ;; syn ;;
        write_key (current_trigger m) 0 ;; syn ;;
        cancel_compose
      else ret tt
  | WAITING_TARGET =>
      if timeout_sec d <=? now - compose_start_time m then
        replay_trigger_compose m ;; cancel_compose
      else ret tt
  | _ => ret tt
  end.

(** An evdev input event. *)
Record event := mkEvent { ev_type : Z; ev_code : Z; ev_value : Z }.

(** [pressed_keys.add] and [pressed_keys.discard] on the set of pressed keys. *)
Definition set_add (k : Z) (l : list Z) : list Z := if mem k l then l else l ++ [k].
Definition set_discard (k : Z) (l : list Z) : list Z := filter (fun x => negb (x =? k)) l.

(** [key_code == self.current_x] *)
Definition key_is (k : Z) (o : option Z) : bool :=
  match o with Some c => k =? c | None => false end.

(** [self.current_x not in self.pressed_keys] *)
Definition not_pressed (o : option Z) (pressed : list Z) : bool :=
  match o with Some c => negb (mem c pressed) | None => true end.

Definition MODIFIER_KEYS : list Z :=
  [E.KEY_LEFTSHIFT; E.KEY_RIGHTSHIFT; E.KEY_LEFTCTRL; E.KEY_RIGHTCTRL;
   E.KEY_LEFTALT; E.KEY_RIGHTALT; E.KEY_LEFTMETA; E.KEY_RIGHTMETA].

Definition is_modifier (k : Z) : bool := mem k MODIFIER_KEYS.

(** [lookup_key in self.config.sequences]: a tuple holding [None] equals no
    key of the table. *)
Definition seq_lookup (c : UmlautConfig) (trig : option Z) (shifted : bool)
    (comp : option Z) (targets : list Z) : option keyseq :=
  match trig, comp with
  | Some t, Some k => dict_get lkey_eqb (sequences c) (mkLKey t shifted k targets)
  | _, _ => None
  end.

(** The target key list of [WAITING_TARGET]: each held modifier is inserted
    at position 0 in turn (Shift, then Ctrl, then Alt). *)
Definition build_target_keys (c : UmlautConfig) (pressed : list Z) (key_code : Z)
    : list Z * bool :=
  let shifted := mem E.KEY_LEFTSHIFT pressed || mem E.KEY_RIGHTSHIFT pressed in
  let t1 := if shifted then E.KEY_LEFTSHIFT :: [key_code] else [key_code] in
  let t2 := if mem E.KEY_LEFTCTRL pressed || mem E.KEY_RIGHTCTRL pressed
            then E.KEY_LEFTCTRL :: t1 else t1 in
  let t3 := if (mem E.KEY_LEFTALT pressed || mem E.KEY_RIGHTALT pressed)
               && negb (mem key_code (trigger_keys_list c))
            then E.KEY_LEFTALT :: t2 else t2 in
  (t3, shifted).

Definition match_target (c : UmlautConfig) (m : machine) (target_keys : list Z)
    (target_was_shifted : bool) : option keyseq :=
  match seq_lookup c (current_trigger m) (compose_shifted m) (current_compose m) target_keys with
  | Some s => Some s
  | None =>
      if target_was_shifted then
        seq_lookup c (current_trigger m) (compose_shifted m) (current_compose m)
          (filter (fun k => negb (is_shift k)) target_keys)
      else None
  end.

(** The fall-through at the end of [handle_event]. *)
Definition pass_through (key_code value : Z) : M unit :=
  write E.EV_KEY key_code value ;; syn.

(** Write the trigger press, then the key, and reset. *)
Definition trigger_then_key (m : machine) (key_code value : Z) : M unit :=
  write_key (current_trigger m) 1 ;; syn ;;
  write E.EV_KEY key_code value ;; syn ;;
  cancel_compose.

Definition handle_idle (d : daemon) (now key_code value : Z) : M unit :=
  let m := sm d in
  if (value =? 1) && mem key_code (trigger_keys_list (config d)) then
    let other_modifiers :=
      set_discard key_code [E.KEY_LEFTCTRL; E.KEY_RIGHTCTRL; E.KEY_LEFTMETA; E.KEY_RIGHTMETA] in
    if existsb (fun k => mem k other_modifiers) (pressed_keys m) then
      write E.EV_KEY key_code value
    else
      upd_sm (fun m => mkMachine TRIGGER_PRESSED (pressed_keys m) (Some key_code)
                         (current_compose m) (compose_shifted m) (compose_start_time m) now)
  else pass_through key_code value.

Definition handle_trigger_pressed (d : daemon) (key_code value : Z) : M unit :=
  let m := sm d in
  let c := config d in
  if (value =? 0) && key_is key_code (current_trigger m) then
    write_key (current_trigger m) 1 ;; syn ;;
    write_key (current_trigger m) 0 ;; syn ;;
    cancel_compose
  else if (value =? 1)
          && mem key_code [E.KEY_LEFTCTRL; E.KEY_RIGHTCTRL; E.KEY_LEFTSHIFT;
                           E.KEY_RIGHTSHIFT; E.KEY_LEFTMETA; E.KEY_RIGHTMETA]
          && negb (mem key_code (trigger_keys_list c)) then
    if is_shift key_code then ret tt
    else trigger_then_key m key_code value
  else if (value =? 1) && mem key_code (passthrough_keys c) then
    trigger_then_key m key_code value
  else if (value =? 1) && negb (key_is key_code (current_trigger m)) then
    if negb (mem key_code (valid_compose_keys d)) then
      trigger_then_key m key_code value
    else
      upd_sm (fun m => mkMachine COMPOSE_PRESSED (pressed_keys m) (current_trigger m)
                         (Some key_code)
                         (mem E.KEY_LEFTSHIFT (pressed_keys m) || mem E.KEY_RIGHTSHIFT (pressed_keys m))
                         (compose_start_time m) (trigger_start_time m))
  else pass_through key_code value.

Definition handle_compose_pressed (d : daemon) (now key_code value : Z) : M unit :=
  let m := sm d in
  (if is_modifier key_code && (value =? 0) && is_shift key_code
   then write E.EV_KEY key_code 0 ;; syn else ret tt) ;;
  if (value =? 0) && (key_is key_code (current_trigger m) || key_is key_code (current_compose m)) then
    if not_pressed (current_trigger m) (pressed_keys m)
       && not_pressed (current_compose m) (pressed_keys m) then
      upd_sm (fun m => mkMachine WAITING_TARGET (pressed_keys m) (current_trigger m)
                         (current_compose m) (compose_shifted m) now (trigger_start_time m))
    else ret tt
  else pass_through key_code value.

Definition handle_waiting_target (d : daemon) (key_code value : Z) : M unit :=
  let m := sm d in
  let c := config d in
  if is_modifier key_code then
    (if (value =? 0) && is_shift key_code then write E.EV_KEY key_code 0 ;; syn else ret tt)
  else if value =? 1 then
    let '(target_keys, target_was_shifted) := build_target_keys c (pressed_keys m) key_code in
    match match_target c m target_keys target_was_shifted with
    | Some matched_seq =>
        emit_output (output matched_seq) target_was_shifted ;;
        cancel_compose
    | None =>
        replay_trigger_compose m ;;
        write E.EV_KEY key_code value ;; syn ;;
        cancel_compose
    end
  else pass_through key_code value.

(** [handle_event]; [now] is the value [time.time()] returns. *)
Definition handle_event (now : Z) (ev : event) : M unit :=
  if negb (ev_type ev =? E.EV_KEY) then write (ev_type ev) (ev_code ev) (ev_value ev)
  else
    let key_code := ev_code ev in
    let value := ev_value ev in
    upd_sm (fun m => mkMachine (state m)
              (if value =? 1 then set_add key_code (pressed_keys m)
               else if value =? 0 then set_discard key_code (pressed_keys m)
               else pressed_keys m)
              (current_trigger m) (current_compose m) (compose_shifted m)
              (compose_start_time m) (trigger_start_time m)) ;;
    d <- get ;;
    let s := state (sm d) in
    if (value =? 2) && negb (st_eqb s IDLE) then ret tt
    else if (key_code =? E.KEY_ESC) && (value =? 1) && negb (st_eqb s IDLE) then
      force_release_all
    else match s with
         | IDLE => handle_idle d now key_code value
         | TRIGGER_PRESSED => handle_trigger_pressed d key_code value
         | COMPOSE_PRESSED => handle_compose_pressed d now key_code value
         | WAITING_TARGET => handle_waiting_target d key_code value
         end.

(** ** Config loader: pure parsing helpers of [UmlautConfig]

    A pure helper returns [inl e] when Python raises [e]. *)

Definition res (A : Type) := (exc + A)%type.

Definition bindR {A B} (r : res A) (k : A -> res B) : res B :=
  match r with inr a => k a | inl e => inl e end.

Fixpoint mapR {X Y} (f : X -> res Y) (l : list X) : res (list Y) :=
  match l with
  | [] => inr []
  | x :: l' => bindR (f x) (fun y => bindR (mapR f l') (fun ys => inr (y :: ys)))
  end.

Definition liftR {A} (r : res A) : M A :=
  match r with inr a => ret a | inl e => raise e end.

(** [for x in j]: a list yields its items, a string its characters, a dict
    its keys; anything else raises [TypeError]. *)
Definition py_iter (j : json) : res (list json) :=
  match j with
  | JArr l => inr l
  | JStr s => inr (map (fun c => JStr [c]) s)
  | JObj kvs => inr (map (fun kv => JStr (fst kv)) kvs)
  | _ => inl TypeError
  end.

(** [_key_name_to_code]: an int (a bool is an int in Python) is returned
    as is; a string is looked up in [evdev.ecodes]; anything else has no
    [startswith] ([AttributeError]). *)
Definition key_name_to_code (key_name : json) : res Z :=
  match key_name with
  | JInt n => inr n
  | JBool b => inr (if b then 1 else 0)
  | JStr s =>
      let name := if startswith s (py "KEY_") then s else py "KEY_" ++ py_upper s in
      match E.getattr name with Some k => inr k | None => inl ValueError end
  | _ => inl AttributeError
  end.

(** [_char_or_key_to_code]. *)
Definition char_or_key_to_code (text : pystr) : res Z :=
  let text_upper := py_upper text in
  if pystr_eqb text_upper (py "CTRL") then inr E.KEY_LEFTCTRL
  else if pystr_eqb text_upper (py "ALT") then inr E.KEY_LEFTALT
  else if pystr_eqb text_upper (py "ALTGR") then inr E.KEY_RIGHTALT
  else if pystr_eqb text_upper (py "SHIFT") then inr E.KEY_LEFTSHIFT
  else if pystr_eqb text_upper (py "META") || pystr_eqb text_upper (py "SUPER") then inr E.KEY_LEFTMETA
  else match text with
       | [c] => match zget CHAR_TO_KEY c with
                | Some k => inr k
                | None => key_name_to_code (JStr text)
                end
       | _ => key_name_to_code (JStr text)
       end.

(** [_parse_target_key].  A target that is not a string makes one of the
    string operations fail with [TypeError] or [AttributeError], never
    with [ValueError]; the model raises [TypeError]. *)
Definition parse_target_key (target : json) : res (list Z) :=
  match target with
  | JStr t =>
      if mem 43 t && existsb (fun m => contains (py_upper t) (py m))
                           ["CTRL"; "ALT"; "SHIFT"; "META"]%string then
        mapR (fun part => char_or_key_to_code (py_strip part)) (split_on 43 t)
      else match t with
           | [c] =>
               match zget SHIFTED_CHARS c with
               | Some base_char =>
                   match zget CHAR_TO_KEY base_char with
                   | Some k => inr [E.KEY_LEFTSHIFT; k]
                   | None => inl KeyError
                   end
               | None =>
                   match zget CHAR_TO_KEY c with
                   | Some k => inr [k]
                   | None => inl ValueError
                   end
               end
           | _ => bindR (key_name_to_code (JStr t)) (fun k => inr [k])
           end
  | _ => inl TypeError
  end.

Definition MAX_OUTPUT_LENGTH := 10000.
Definition MAX_SEQUENCE_DEPTH := 10.

(** [_parse_output]. *)
Fixpoint parse_output (output_def : json) : res action :=
  match output_def with
  | JStr s =>
      if MAX_OUTPUT_LENGTH <? Z.of_nat (List.length s) then inl ValueError
      else inr (AString (JStr s))
  | JArr items =>
      if MAX_SEQUENCE_DEPTH <? Z.of_nat (List.length items) then inl ValueError
      else
        bindR
          ((fix go (l : list json) : res (list action) :=
              match l with
              | [] => inr []
              | item :: l' =>
                  match item with
                  | JStr s =>
                      let a := if startswith s (py "KEY_")
                               then bindR (key_name_to_code (JStr s)) (fun k => inr (AKey k))
                               else inr (AString (JStr s)) in
                      bindR a (fun a => bindR (go l') (fun r => inr (a :: r)))
                  | JObj _ =>
                      bindR (parse_output item) (fun a => bindR (go l') (fun r => inr (a :: r)))
                  | _ => go l'
                  end
              end) items)
          (fun actions => inr (ASeq actions))
  | JObj kvs =>
      match jget kvs (py "key") with
      | Some key =>
          bindR (key_name_to_code key) (fun key_code =>
          bindR (match jget kvs (py "modifiers") with
                 | Some ms => py_iter ms
                 | None => inr []
                 end) (fun ms =>
          bindR (mapR key_name_to_code ms) (fun modifiers =>
          inr (AKeyMods key_code modifiers))))
      | None =>
          match jget kvs (py "string") with
          | Some data => inr (AString data)
          | None => inl ValueError
          end
      end
  | _ => inl ValueError
  end.

(** ** Config loader: the files and the stateful loading methods *)

(** A file of the user config directory: parsed JSON or invalid JSON. *)
Inductive file := FJson (j : json) | FInvalid.

(** The user config directory [~/.config/umlaut], by file name; a name
    that is absent is a missing file. *)
Definition fs := list (pystr * file).

Definition fs_lookup (f : fs) (name : pystr) : option file := dict_get pystr_eqb f name.

Definition SETTINGS_FILE := py "settings.config.json".

(** Setters of the config fields. *)
Definition cfg_set_sequences (s : list (lkey * keyseq)) (c : UmlautConfig) : UmlautConfig :=
  mkConfig s (trigger_keys_list c) (passthrough_keys c) (timeout_ms c) (log_level c).
Definition cfg_set_triggers (t : list Z) (c : UmlautConfig) : UmlautConfig :=
  mkConfig (sequences c) t (passthrough_keys c) (timeout_ms c) (log_level c).
Definition cfg_set_passthrough (p : list Z) (c : UmlautConfig) : UmlautConfig :=
  mkConfig (sequences c) (trigger_keys_list c) p (timeout_ms c) (log_level c).
Definition cfg_set_timeout (t : Z) (c : UmlautConfig) : UmlautConfig :=
  mkConfig (sequences c) (trigger_keys_list c) (passthrough_keys c) t (log_level c).
Definition cfg_set_log_level (l : pystr) (c : UmlautConfig) : UmlautConfig :=
  mkConfig (sequences c) (trigger_keys_list c) (passthrough_keys c) (timeout_ms c) l.

(** [key in j] for a JSON container [j]. *)
Definition json_contains (j : json) (key : pystr) : res bool :=
  match j with
  | JObj kvs => inr (is_some (jget kvs key))
  | JArr l => inr (existsb (fun x => match x with JStr s => pystr_eqb s key | _ => false end) l)
  | JStr s => inr (contains s key)
  | _ => inl TypeError
  end.

(** [j[key]] with a string key. *)
Definition json_index (j : json) (key : pystr) : res json :=
  match j with
  | JObj kvs => match jget kvs key with Some v => inr v | None => inl KeyError end
  | _ => inl TypeError
  end.

Fixpoint digits_val (s : pystr) (acc : Z) (prev_underscore : bool) : option Z :=
  match s with
  | [] => if prev_underscore then None else Some acc
  | c :: s' =>
      match decimal_value c with
      | Some v => digits_val s' (acc * 10 + v) false
      | None => if (c =? 95) && negb prev_underscore then digits_val s' acc true else None
      end
  end.

(** [int(j)]: decimal strings with an optional sign, surrounding blanks and
    single [_] separators; the digits may be any Unicode decimal digits. *)
Definition py_int (j : json) : res Z :=
  match j with
  | JInt n => inr n
  | JBool b => inr (if b then 1 else 0)
  | JStr s =>
      let t := py_strip s in
      let r := match t with
               | 45 :: t' => option_map Z.opp (digits_val t' 0 true)
               | 43 :: t' => digits_val t' 0 true
               | _ => digits_val t 0 true
               end in
      match r with Some n => inr n | None => inl ValueError end
  | _ => inl TypeError
  end.

Definition is_value_error (e : exc) : bool := match e with ValueError => true | _ => false end.
Definition is_type_error (e : exc) : bool := match e with TypeError => true | _ => false end.
(** [except Exception]: everything but [SystemExit]. *)
Definition is_exception (e : exc) : bool := match e with SystemExit => false | _ => true end.

(** [_load_single_config(settings_path, is_system=True, sequences_allowed=False)],
    the call [load_config] makes. *)
Definition load_single_config (f : fs) (config_path : pystr) : M unit :=
  match fs_lookup f config_path with
  | None => raise SystemExit
  | Some FInvalid => raise SystemExit
  | Some (FJson (JObj config)) =>
      (* trigger_key *)
      (match jget config (py "trigger_key") with
       | Some trigger_key_def =>
           if truthy trigger_key_def then
             let trigger_key_def :=
               match trigger_key_def with JStr s => JArr [JStr s] | t => t end in
             upd_config (cfg_set_triggers []) ;;
             items <- liftR (py_iter trigger_key_def) ;;
             mfor items (fun mod_key =>
               match key_name_to_code mod_key with
               | inr key_code => upd_config (fun c => cfg_set_triggers (trigger_keys_list c ++ [key_code]) c)
               | inl ValueError => raise SystemExit
               | inl e => raise e
               end)
           else ret tt
       | None => ret tt
       end) ;;
      (* passthrough_keys *)
      (match jget config (py "passthrough_keys") with
       | Some ignore_def =>
           if truthy ignore_def then
             upd_config (cfg_set_passthrough []) ;;
             items <- liftR (py_iter ignore_def) ;;
             mfor items (fun pt_key =>
               match parse_target_key pt_key with
               | inr (key_code :: _) => upd_config (fun c => cfg_set_passthrough (passthrough_keys c ++ [key_code]) c)
               | inr [] => raise IndexError
               | inl ValueError => ret tt
               | inl e => raise e
               end)
           else ret tt
       | None => ret tt
       end) ;;
      (* settings *)
      let settings := match jget config (py "settings") with Some s => s | None => JObj [] end in
      if truthy settings then
        has_timeout <- liftR (json_contains settings (py "timeout_ms")) ;;
        (if has_timeout then
           try_except
             (v <- liftR (json_index settings (py "timeout_ms")) ;;
              value <- liftR (py_int v) ;;
              if (100 <=? value) && (value <=? 10000)
              then upd_config (cfg_set_timeout value) else ret tt)
             (fun e => is_value_error e || is_type_error e) (fun _ => ret tt)
         else ret tt) ;;
        has_log_level <- liftR (json_contains settings (py "log_level")) ;;
        if has_log_level then
          l <- liftR (json_index settings (py "log_level")) ;;
          match l with
          | JStr s => upd_config (cfg_set_log_level (py_upper s))
          | _ => raise AttributeError
          end
        else ret tt
      else ret tt
  | Some (FJson _) => ret tt
  end.

(** [umlaut_paths.load_sequence_config], reduced to the cleaned
    ['sequences'] dict (the only part the daemon reads); [None] for a
    missing file, invalid JSON or a root that is not an object. *)
Definition clean_sequences (raw_seqs : list (pystr * json)) : list (pystr * json) :=
  let '(clean_seqs, aliases) :=
    fold_left (fun '(clean, aliases) '(compose_key, targets) =>
      match targets with
      | JStr r => (clean, aliases ++ [(compose_key, r)])
      | JObj tkvs =>
          let clean_targets :=
            filter (fun kv => match snd kv with JStr _ => true | _ => false end) tkvs in
          if is_empty clean_targets then (clean, aliases)
          else (dict_set pystr_eqb clean compose_key (JObj clean_targets), aliases)
      | _ => (clean, aliases)
      end) raw_seqs ([], []) in
  fold_left (fun clean '(compose_key, r) =>
    if is_some (dict_get pystr_eqb clean r)
    then dict_set pystr_eqb clean compose_key (JStr r) else clean) aliases clean_seqs.

Definition load_sequence_config (f : fs) (path : pystr) : option (list (pystr * json)) :=
  match fs_lookup f path with
  | Some (FJson (JObj raw)) =>
      match jget raw (py "sequences") with
      | None => Some []
      | Some (JObj raw_seqs) => Some (clean_sequences raw_seqs)
      | Some _ => Some []
      end
  | _ => None
  end.

(** The inner loop of [_load_sequence_file]: one target of a compose key,
    inserted once per trigger key; a [ValueError] skips the target. *)
Definition load_target (compose_shifted : bool) (compose_key_code : Z)
    (target : pystr * json) : M unit :=
  try_except
    (target_keys <- liftR (parse_target_key (JStr (fst target))) ;;
     output_action <- liftR (parse_output (snd target)) ;;
     d <- get ;;
     mfor (trigger_keys_list (config d)) (fun mod_key =>
       upd_config (fun c =>
         cfg_set_sequences
           (dict_set lkey_eqb (sequences c)
              (mkLKey mod_key compose_shifted compose_key_code target_keys)
              (mkKeySeq [mod_key] compose_key_code compose_shifted target_keys output_action))
           c)))
    is_value_error (fun _ => ret tt).

Definition load_compose_entry (compose_key_name : pystr) (targets : list (pystr * json)) : M unit :=
  try_except
    (let compose_shifted := startswith (py_upper compose_key_name) (py "SHIFT+") in
     let compose_key_name := if compose_shifted then skipn 6 compose_key_name else compose_key_name in
     compose_key <- liftR (parse_target_key (JStr compose_key_name)) ;;
     match compose_key with
     | compose_key_code :: _ => mfor targets (load_target compose_shifted compose_key_code)
     | [] => raise IndexError
     end)
    is_value_error (fun _ => ret tt).

(** [_load_sequence_file]. [umlaut_paths] says whether the module-level
    import of [umlaut_paths.load_sequence_config] succeeded; when it did
    not, the file goes through [_load_single_config] unchecked. *)
Definition load_sequence_file_with (umlaut_paths : bool) (f : fs) (config_path : pystr) : M unit :=
  if negb umlaut_paths then load_single_config f config_path else
  match load_sequence_config f config_path with
  | None => ret tt
  | Some sequences_def =>
      if is_empty sequences_def then ret tt
      else mfor sequences_def (fun '(compose_key_name, targets) =>
        match targets with
        | JStr alias =>
            match dict_get pystr_eqb sequences_def alias with
            | Some (JObj t) => load_compose_entry compose_key_name t
            | _ => ret tt
            end
        | JObj t => load_compose_entry compose_key_name t
        | _ => raise AttributeError
        end)
  end.

(** The loader of the model below runs with [umlaut_paths] installed. *)
Definition load_sequence_file (f : fs) (config_path : pystr) : M unit :=
  load_sequence_file_with true f config_path.

(** Decimal digits of a non-negative number ([fuel] bounds their count). *)
Fixpoint decimal (fuel : nat) (n : Z) : pystr :=
  match fuel with
  | O => []
  | S fuel' => if n <? 10 then [48 + n] else decimal fuel' (n / 10) ++ [48 + n mod 10]
  end.

(** [f"{config_name}"] for the values a file stem can usefully be; a list
    or an object formats with brackets and quotes, and the model treats the
    resulting file name as absent. *)
Definition format_name (j : json) : option pystr :=
  match j with
  | JStr s => Some s
  | JNull => Some (py "None")
  | JBool b => Some (if b then py "True" else py "False")
  | JInt n =>
      Some ((if n <? 0 then [45] else [])
            ++ decimal (S (Z.to_nat (Z.log2 (Z.abs n)))) (Z.abs n))
  | _ => None
  end.

(** [_load_enabled_configs]. *)
Definition load_enabled_configs (f : fs) : M unit :=
  match fs_lookup f SETTINGS_FILE with
  | Some (FJson (JObj settings)) =>
      let enabled_configs :=
        match jget settings (py "enabled_sequences") with Some e => e | None => JArr [] end in
      if negb (truthy enabled_configs) then ret tt
      else
        names <- liftR (py_iter enabled_configs) ;;
        mfor names (fun config_name =>
          match format_name config_name with
          | Some n =>
              let config_path := n ++ py ".config.json" in
              if is_some (fs_lookup f config_path) then
                try_except (load_sequence_file f config_path) is_exception (fun _ => ret tt)
              else ret tt
          | None => ret tt
          end)
  | _ => ret tt
  end.

(** [load_config]. *)
Definition load_config (f : fs) : M unit :=
  upd_config (fun c => cfg_set_passthrough [] (cfg_set_triggers [] (cfg_set_sequences [] c))) ;;
  load_single_config f SETTINGS_FILE ;;
  load_enabled_configs f ;;
  d <- get ;;
  if is_empty (trigger_keys_list (config d)) then raise SystemExit
  else if is_empty (sequences (config d)) then raise SystemExit
  else ret tt.

(** [reload_config]. *)
Definition reload_config (f : fs) : M unit :=
  try_except (load_config f ;; force_release_all) is_exception (fun _ => ret tt).

(** The [valid_compose_keys] loop of [__init__]. *)
Definition compute_valid_compose_keys (seqs : list (lkey * keyseq)) : list Z :=
  fold_left (fun acc kv => set_add (lk_compose (fst kv)) acc) seqs [].

Definition machine_init : machine := mkMachine IDLE [] None None false 0 0.

(** [UmlautDaemon.__init__] (through [UmlautConfig()]); [None] when loading
    raises. [xdo] is the flag [_check_xdotool] sets in [run]. *)
Definition daemon_init (f : fs) (xdo : bool) : option daemon :=
  let d0 := mkDaemon (mkConfig [] [] [] 1000 (py "INFO")) [] 0 false [] machine_init [] None in
  match load_config f d0 with
  | (inr _, d1) =>
      Some (mkDaemon (config d1) (compute_valid_compose_keys (sequences (config d1)))
              (timeout_ms (config d1)) xdo [] machine_init [] None)
  | (inl _, _) => None
  end.

(** The daemon objects reachable from a successful start: events, timeout
    checks, force-releases (signal handler) and reloads; at any time the
    system may fix the outcomes of the coming xdotool calls. *)
Inductive reachable : daemon -> Prop :=
| reach_init f xdo d : daemon_init f xdo = Some d -> reachable d
| reach_event now ev d : reachable d -> reachable (snd (handle_event now ev d))
| reach_timeout now d : reachable d -> reachable (snd (check_timeout now d))
| reach_force d : reachable d -> reachable (snd (force_release_all d))
| reach_reload f d : reachable d -> reachable (snd (reload_config f d))
| reach_env r d : reachable d -> reachable (set_xdo_results r d).

(** ** Device discovery filters

    [device.capabilities()]: a dict from event type to a list; the list of
    [EV_ABS] holds [(code, AbsInfo)] pairs, the other lists hold codes. *)

Inductive capv := CInt (c : Z) | CAbs (c : Z).

Definition caps_t := list (Z * list capv).

Definition caps_get (caps : caps_t) (t : Z) : option (list capv) := dict_get Z.eqb caps t.

(** [x in lst] for an int [x]: an [(code, AbsInfo)] pair never equals it. *)
Definition cap_mem (x : Z) (l : list capv) : bool :=
  existsb (fun v => match v with CInt c => x =? c | CAbs _ => false end) l.

(** [set(lst)] of the key list: the codes it holds. *)
Definition cap_ints (l : list capv) : list Z :=
  flat_map (fun v => match v with CInt c => [c] | CAbs _ => [] end) l.

(** [len(keys & ref)] for a reference set [ref] without repetitions. *)
Definition inter_count (keys ref : list Z) : Z :=
  Z.of_nat (List.length (filter (fun k => mem k keys) ref)).

Definition intersects (keys ref : list Z) : bool := existsb (fun k => mem k keys) ref.

Definition VIRTUAL_NAME : pystr := py "umlaut-virtual-keyboard".

Definition REAL_KEYBOARD_KEYS : list Z :=
  [E.KEY_A; E.KEY_B; E.KEY_C; E.KEY_D; E.KEY_E;
   E.KEY_SPACE; E.KEY_ENTER; E.KEY_BACKSPACE; E.KEY_LEFTSHIFT; E.KEY_LEFTCTRL].

Definition MIN_KEYBOARD_KEYS := 8.

Definition gamepad_buttons : list Z :=
  [E.BTN_GAMEPAD; E.BTN_SOUTH; E.BTN_EAST; E.BTN_NORTH; E.BTN_WEST;
   E.BTN_A; E.BTN_B; E.BTN_X; E.BTN_Y].

Definition mouse_buttons : list Z := [E.BTN_LEFT; E.BTN_RIGHT; E.BTN_MIDDLE; E.BTN_MOUSE].

(** The loop body of [find_keyboard_devices]: [true] when the device is
    appended. *)
Definition startup_admits (name : pystr) (caps : caps_t) : bool :=
  if pystr_eqb name VIRTUAL_NAME then false
  else match caps_get caps E.EV_KEY with
  | None => false
  | Some key_caps =>
      if is_some (caps_get caps E.EV_REL) then false
      else
        let keys := cap_ints key_caps in
        let abs_ok :=
          match caps_get caps E.EV_ABS with
          | None => true
          | Some abs_axes =>
              if cap_mem E.ABS_X abs_axes || cap_mem E.ABS_Y abs_axes then false
              else if cap_mem E.ABS_MT_POSITION_X abs_axes then false
              else negb (intersects keys gamepad_buttons)
          end in
        if negb abs_ok then false
        else if intersects keys mouse_buttons then false
        else MIN_KEYBOARD_KEYS <=? inter_count keys REAL_KEYBOARD_KEYS
  end.

Definition REAL_KEYS : list Z :=
  [E.KEY_A; E.KEY_SPACE; E.KEY_ENTER; E.KEY_BACKSPACE; E.KEY_LEFTSHIFT; E.KEY_LEFTCTRL].

(** The loop body of [_check_new_devices]: [true] when the device is
    grabbed. *)
Definition hotplug_admits (name : pystr) (caps : caps_t) : bool :=
  if pystr_eqb name VIRTUAL_NAME then false
  else
    let keys := cap_ints (match caps_get caps E.EV_KEY with Some l => l | None => [] end) in
    is_some (caps_get caps E.EV_KEY) && (4 <=? inter_count keys REAL_KEYS).

(** ** Fixtures and auxiliary definitions of the theorems *)

(** The transient fields are reset whenever the machine is [IDLE]. *)
Definition idle_ok (m : machine) : Prop :=
  state m = IDLE ->
  current_trigger m = None /\ current_compose m = None /\ compose_shifted m = false
  /\ trigger_start_time m = 0 /\ compose_start_time m = 0.

Definition kev (c v : Z) : out_ev := OWrite E.EV_KEY c v.

(** The release [force_release_all] writes for a set key slot. *)
Definition release_evs (o : option Z) : list out_ev :=
  match o with Some k => [kev k 0; OSyn] | None => [] end.

(** The replay of trigger and compose (Shift-wrapped if [compose_shifted]). *)
Definition replay_evs (t c : Z) (cs : bool) : list out_ev :=
  [kev t 1; OSyn; kev t 0; OSyn]
  ++ (if cs then [kev E.KEY_LEFTSHIFT 1; OSyn] else [])
  ++ [kev c 1; OSyn; kev c 0; OSyn]
  ++ (if cs then [kev E.KEY_LEFTSHIFT 0; OSyn] else []).

(** A small configuration: trigger LeftAlt, [;] then [a] gives "ä". *)
Definition cfg_demo : UmlautConfig :=
  mkConfig [(mkLKey E.KEY_LEFTALT false E.KEY_SEMICOLON [E.KEY_A],
             mkKeySeq [E.KEY_LEFTALT] E.KEY_SEMICOLON false [E.KEY_A] (AString (JStr [228])))]
           [E.KEY_LEFTALT] [] 1000 (py "INFO").

Definition daemon_in (m : machine) : daemon := mkDaemon cfg_demo [E.KEY_SEMICOLON] 1000 true [] m [] None.

Definition waiting_demo : machine :=
  mkMachine WAITING_TARGET [] (Some E.KEY_LEFTALT) (Some E.KEY_SEMICOLON) false 0 0.

(** The state that [handle_compose_pressed] reaches for an event (after
    [handle_event] updated [pressed_keys]): [WAITING_TARGET] when the event
    is a release of the trigger or the compose key and neither is held any
    more, [COMPOSE_PRESSED] otherwise. *)
Definition compose_pressed_next (m : machine) (key_code value : Z) : st :=
  if (value =? 0) && (key_is key_code (current_trigger m) || key_is key_code (current_compose m))
     && not_pressed (current_trigger m) (set_discard key_code (pressed_keys m))
     && not_pressed (current_compose m) (set_discard key_code (pressed_keys m))
  then WAITING_TARGET else COMPOSE_PRESSED.

(** The compose key [;] has been pressed and released, LeftAlt is held. *)
Definition compose_demo : machine :=
  mkMachine COMPOSE_PRESSED [E.KEY_LEFTALT] (Some E.KEY_LEFTALT) (Some E.KEY_SEMICOLON) false 0 0.

(** A full keyboard that also reports relative axes (a keyboard with a
    built-in touchpad or trackpoint). *)
Definition kbd_with_pointer : caps_t :=
  [(E.EV_KEY, map CInt [E.KEY_A; E.KEY_B; E.KEY_C; E.KEY_D; E.KEY_E; E.KEY_SPACE;
                        E.KEY_ENTER; E.KEY_BACKSPACE; E.KEY_LEFTSHIFT; E.KEY_LEFTCTRL;
                        E.BTN_LEFT]);
   (E.EV_REL, [CInt 0; CInt 1])].

Definition js (s : string) : json := JStr (py s).

Definition settings_de : json :=
  JObj [(py "version", JInt 1); (py "trigger_key", js "KEY_LEFTALT");
        (py "enabled_sequences", JArr [js "de"])].

(** [;] then a/A gives ä/Ä; [SHIFT+;] is an alias of [;]. *)
Definition de_semicolon : json :=
  JObj [(py "sequences",
         JObj [(py ";", JObj [(py "a", JStr [228]); (py "A", JStr [196])]);
               (py "SHIFT+;", js ";")])].

(** The same table on the compose key ['] instead. *)
Definition de_apostrophe : json :=
  JObj [(py "sequences", JObj [(py "'", JObj [(py "a", JStr [228]); (py "A", JStr [196])])])].

Definition fs_de : fs :=
  [(SETTINGS_FILE, FJson settings_de); (py "de.config.json", FJson de_semicolon)].

Definition fs_de_apostrophe : fs :=
  [(SETTINGS_FILE, FJson settings_de); (py "de.config.json", FJson de_apostrophe)].

(** A settings file whose trigger key is a number: [key_name_to_code]
    fails on it with an exception other than [ValueError]. *)
Definition fs_bad_trigger : fs := [(SETTINGS_FILE, FJson (JObj [(py "trigger_key", JInt 5)]))].

(** The daemon started on [fs_de] (a dummy when the start fails). *)
Definition daemon_de : daemon :=
  match daemon_init fs_de true with Some d => d | None => daemon_in machine_init end.

(** [load_config]'s first statement: the three [clear()] calls. *)
Definition clear_tables (c : UmlautConfig) : UmlautConfig :=
  cfg_set_passthrough [] (cfg_set_triggers [] (cfg_set_sequences [] c)).

(** The compose keys of the compiled table ([t[2]] of every key tuple). *)
Definition table_compose_keys (c : UmlautConfig) : list Z :=
  compute_valid_compose_keys (sequences c).

(** An output string of [n] letters x. *)
Definition xs (n : Z) : pystr := List.repeat 120 (Z.to_nat n).

(** A plain keyboard. *)
Definition plain_keyboard : caps_t :=
  [(E.EV_KEY, map CInt [E.KEY_ESC; E.KEY_A; E.KEY_B; E.KEY_C; E.KEY_D; E.KEY_E; E.KEY_SPACE;
                        E.KEY_ENTER; E.KEY_BACKSPACE; E.KEY_LEFTSHIFT; E.KEY_LEFTCTRL])].

(** ** Invariants of whole daemon objects *)

(** The slots a state relies on are set. *)
Definition machine_wf (m : machine) : Prop :=
  match state m with
  | IDLE => True
  | TRIGGER_PRESSED => current_trigger m <> None
  | COMPOSE_PRESSED | WAITING_TARGET => current_trigger m <> None /\ current_compose m <> None
  end.

(** [inv I m]: whatever [m] does (also when it raises), it keeps [I]. *)
Definition inv (I : daemon -> Prop) {A} (m : M A) : Prop :=
  forall d, I d -> I (snd (m d)).

(** The states of [reachable] that no [reload_config] led to. *)
Inductive reachable_no_reload : daemon -> Prop :=
| nr_init f xdo d : daemon_init f xdo = Some d -> reachable_no_reload d
| nr_event now ev d : reachable_no_reload d -> reachable_no_reload (snd (handle_event now ev d))
| nr_timeout now d : reachable_no_reload d -> reachable_no_reload (snd (check_timeout now d))
| nr_force d : reachable_no_reload d -> reachable_no_reload (snd (force_release_all d))
| nr_env r d : reachable_no_reload d -> reachable_no_reload (set_xdo_results r d).

(** The last of the events of [evs] that [f] picks out. *)
Fixpoint last_of {X} (f : out_ev -> option X) (evs : list out_ev) : option X :=
  match evs with
  | [] => None
  | e :: es => match last_of f es with Some x => Some x | None => f e end
  end.

(** The value of a [write(EV_KEY, k, v)]. *)
Definition key_value (k : Z) (e : out_ev) : option Z :=
  match e with
  | OWrite t c v => if (t =? E.EV_KEY) && (c =? k) then Some v else None
  | _ => None
  end.

(** After [seg], no key code is left pressed: the last event [seg] writes
    for a key is a release. *)
Definition nothing_held (seg : list out_ev) : Prop :=
  forall k, last_of (key_value k) seg = None \/ last_of (key_value k) seg = Some 0.

(** The writes of a tap of the keys [ks] as [_parse_target_key] lists them:
    [[k]] is a press and a release of [k]; [[s; k]] holds [s] around it. *)
Definition tap_seg (ks : list Z) : list out_ev :=
  match ks with
  | [k] => [OWrite E.EV_KEY k 1; OSyn; OWrite E.EV_KEY k 0; OSyn]
  | [s; k] => [OWrite E.EV_KEY s 1; OSyn; OWrite E.EV_KEY k 1; OSyn;
               OWrite E.EV_KEY k 0; OSyn; OWrite E.EV_KEY s 0; OSyn]
  | _ => []
  end.

(** ** [_drain_inotify]: parsing the events [os.read] returns

    The buffer is a list of bytes.  [struct.Struct('iIII')] reads native
    integers; the hosts the daemon runs on (x86-64, arm64) are
    little-endian. *)

(** An unsigned little-endian integer from its bytes. *)
Definition u32_le (bs : list Z) : Z := fold_right (fun b acc => b + 256 * acc) 0 bs.

Fixpoint lstrip_nul (bs : list Z) : list Z :=
  match bs with
  | b :: bs' => if b =? 0 then lstrip_nul bs' else bs
  | [] => []
  end.

(** [bytes.rstrip(b'\x00')]. *)
Definition rstrip_nul (bs : list Z) : list Z := rev (lstrip_nul (rev bs)).

Definition is_cont (b : Z) : bool := (128 <=? b) && (b <=? 191).

(** [bytes.decode('utf-8', errors='ignore')] as CPython's decoder does it:
    an invalid start byte is dropped; a sequence whose [i]-th byte is not
    a valid continuation drops its first [i - 1] bytes and decoding goes
    on at the offending byte; a valid but truncated sequence at the end
    drops the rest of the data. *)
Fixpoint utf8_decode (bs : list Z) : list Z :=
  match bs with
  | [] => []
  | b0 :: r0 =>
      if b0 <? 128 then b0 :: utf8_decode r0
      else if b0 <? 194 then utf8_decode r0
      else if b0 <? 224 then
        match r0 with
        | [] => []
        | b1 :: r1 =>
            if is_cont b1 then ((b0 - 192) * 64 + (b1 - 128)) :: utf8_decode r1
            else utf8_decode r0
        end
      else if b0 <? 240 then
        match r0 with
        | [] => []
        | b1 :: r1 =>
            if is_cont b1 && (if b0 =? 224 then 160 <=? b1 else if b0 =? 237 then b1 <? 160 else true)
            then
              match r1 with
              | [] => []
              | b2 :: r2 =>
                  if is_cont b2
                  then ((b0 - 224) * 4096 + (b1 - 128) * 64 + (b2 - 128)) :: utf8_decode r2
                  else utf8_decode r1
              end
            else utf8_decode r0
        end
      else if b0 <? 245 then
        match r0 with
        | [] => []
        | b1 :: r1 =>
            if is_cont b1 && (if b0 =? 240 then 144 <=? b1 else if b0 =? 244 then b1 <? 144 else true)
            then
              match r1 with
              | [] => []
              | b2 :: r2 =>
                  if is_cont b2 then
                    match r2 with
                    | [] => []
                    | b3 :: r3 =>
                        if is_cont b3
                        then ((b0 - 240) * 262144 + (b1 - 128) * 4096 + (b2 - 128) * 64
                              + (b3 - 128)) :: utf8_decode r3
                        else utf8_decode r2
                    end
                  else utf8_decode r1
              end
            else utf8_decode r0
        end
      else utf8_decode r0
  end.

(** The [while offset < len(data)] loop; every round moves [offset] on by
    at least the 16 bytes of a header, so [length data] rounds are enough. *)
Fixpoint inotify_loop (fuel : nat) (data : list Z) (offset : Z) : list pystr :=
  match fuel with
  | O => []
  | S fuel' =>
      if offset <? Z.of_nat (List.length data) then
        if Z.of_nat (List.length data) <? offset + 16 then []
        else
          let name_len := u32_le (firstn 4 (skipn (Z.to_nat (offset + 12)) data)) in
          let offset := offset + 16 in
          if 0 <? name_len then
            let name := utf8_decode (rstrip_nul
                          (firstn (Z.to_nat name_len) (skipn (Z.to_nat offset) data))) in
            let offset := offset + name_len in
            (if startswith name (py "event") then [py "/dev/input/" ++ name] else [])
            ++ inotify_loop fuel' data offset
          else inotify_loop fuel' data (offset + name_len)
      else []
  end.

(** [_drain_inotify]: [inotify_fd] is [self._inotify_fd]; [read] is what
    [os.read] returns, [None] when it raises (the handlers return the
    empty list then, as no path was collected yet). *)
Definition drain_inotify (inotify_fd : option Z) (read : option (list Z)) : list pystr :=
  match inotify_fd with
  | None => []
  | Some _ => match read with
              | None => []
              | Some data => inotify_loop (List.length data) data 0
              end
  end.

(** An inotify event as the kernel writes it: the header, then the name
    padded with [ie_pad] NUL bytes; the length field counts both. *)
Record inotify_event := mkInotifyEvent {
  ie_wd : Z; ie_mask : Z; ie_cookie : Z; ie_name : list Z; ie_pad : nat }.

Definition u32_bytes (n : Z) : list Z :=
  [n mod 256; (n / 256) mod 256; (n / 65536) mod 256; (n / 16777216) mod 256].

Definition encode_event (e : inotify_event) : list Z :=
  u32_bytes (ie_wd e) ++ u32_bytes (ie_mask e) ++ u32_bytes (ie_cookie e)
  ++ u32_bytes (Z.of_nat (List.length (ie_name e) + ie_pad e))
  ++ ie_name e ++ repeat 0 (ie_pad e).

(** The name does not end in NUL and its padded length fits the field. *)
Definition event_ok (e : inotify_event) : bool :=
  match rev (ie_name e) with [] => true | b :: _ => negb (b =? 0) end
  && (Z.of_nat (List.length (ie_name e) + ie_pad e) <? 4294967296).

(** What the loop collects from one event: the decoded name, as a device
    path, when it starts with [event]. *)
Definition event_path (e : inotify_event) : list pystr :=
  let nm := utf8_decode (ie_name e) in
  if startswith nm (py "event") then [py "/dev/input/" ++ nm] else [].

(** [frame m]: [m] leaves the state machine as it was, also when it
    raises (it only writes output or touches other attributes). *)
Definition frame {A} (m : M A) : Prop := forall d, sm (snd (m d)) = sm d.

(** [okp m0 m]: run from any state whose machine is [m0], [m] ends (also
    when it raises) with a machine satisfying [machine_wf]. *)
Definition okp (m0 : machine) (m : M unit) : Prop :=
  forall d, sm d = m0 -> machine_wf (sm (snd (m d))).

Definition cfg_fixed (C : UmlautConfig) (V : list Z) (d : daemon) : Prop :=
  config d = C /\ valid_compose_keys d = V.

(** [released m]: what [m] appends to the output (also when it raises)
    leaves nothing held. *)
Definition released {A} (m : M A) : Prop :=
  forall d, exists seg, uinput (snd (m d)) = uinput d ++ seg /\ nothing_held seg.

(** The writes of the modifier loops of [emit_key]. *)
Definition mods_seg (ms : list Z) (v : Z) : list out_ev :=
  flat_map (fun m => [OWrite E.EV_KEY m v; OSyn]) ms.

(** [daemon_de] after a press of its trigger key at time 0. *)
Definition daemon_de_alt : daemon :=
  snd (handle_event 0 (mkEvent E.EV_KEY E.KEY_LEFTALT 1) daemon_de).

(** ** Induction over output actions (nested in lists) *)

Section ActionInd.
Variable P : action -> Prop.
Hypothesis HString : forall d, P (AString d).
Hypothesis HKey : forall k, P (AKey k).
Hypothesis HKeyMods : forall k ms, P (AKeyMods k ms).
Hypothesis HSeq : forall l, Forall P l -> P (ASeq l).

Fixpoint action_ind' (a : action) : P a :=
  match a with
  | AString d => HString d
  | AKey k => HKey k
  | AKeyMods k ms => HKeyMods k ms
  | ASeq l =>
      HSeq l ((fix go (l : list action) : Forall P l :=
                 match l with
                 | [] => Forall_nil P
                 | x :: l' => Forall_cons x (action_ind' x) (go l')
                 end) l)
  end.
End ActionInd.

(** ** Invariants of the state machine fields

    [sm_inv P m]: whatever [m] does (also when it raises), it keeps [P] of
    the state machine fields. *)

Definition sm_inv (P : machine -> Prop) {A} (m : M A) : Prop :=
  forall d, P (sm d) -> P (sm (snd (m d))).

Section SmInv.
Variable P : machine -> Prop.

Lemma sm_inv_ret {A} (a : A) : sm_inv P (ret a).
Proof. intros d H; exact H. Qed.

Lemma sm_inv_raise {A} (e : exc) : sm_inv P (@raise A e).
Proof. intros d H; exact H. Qed.

Lemma sm_inv_get : sm_inv P get.
Proof. intros d H; exact H. Qed.

Lemma sm_inv_bind {A B} (m : M A) (k : A -> M B) :
  sm_inv P m -> (forall a, sm_inv P (k a)) -> sm_inv P (bind m k).
Proof.
  intros Hm Hk d H. unfold bind.
  specialize (Hm d H). destruct (m d) as [[e|a] d']; simpl in *; auto.
  apply Hk; exact Hm.
Qed.

Lemma sm_inv_try {A} (m : M A) catches (h : exc -> M A) :
  sm_inv P m -> (forall e, sm_inv P (h e)) -> sm_inv P (try_except m catches h).
Proof.
  intros Hm Hh d H. unfold try_except.
  specialize (Hm d H). destruct (m d) as [[e|a] d']; simpl in *; auto.
  destruct (catches e); simpl; auto. apply Hh; exact Hm.
Qed.

Lemma sm_inv_mfor {X} (l : list X) (f : X -> M unit) :
  (forall x, sm_inv P (f x)) -> sm_inv P (mfor l f).
Proof.
  intros Hf. induction l as [|x l IH]; simpl.
  - apply sm_inv_ret.
  - apply sm_inv_bind; auto.
Qed.

Lemma sm_inv_liftR {A} (r : res A) : sm_inv P (liftR r).
Proof. destruct r; [apply sm_inv_raise | apply sm_inv_ret]. Qed.

Lemma sm_inv_write t c v : sm_inv P (write t c v).
Proof. intros d H; exact H. Qed.

Lemma sm_inv_syn : sm_inv P syn.
Proof. intros d H; exact H. Qed.

Lemma sm_inv_xdo o : sm_inv P (xdo o).
Proof. intros d H; exact H. Qed.

Lemma sm_inv_write_key k v : sm_inv P (write_key k v).
Proof. destruct k; [apply sm_inv_write | apply sm_inv_raise]. Qed.

Lemma sm_inv_upd_config f : sm_inv P (upd_config f).
Proof. intros d H; exact H. Qed.

Lemma sm_inv_upd_sm f : (forall m, P m -> P (f m)) -> sm_inv P (upd_sm f).
Proof. intros Hf d H; exact (Hf _ H). Qed.

Lemma sm_inv_set_xdotool_available b : sm_inv P (modify (set_xdotool_available b)).
Proof. intros d H; exact H. Qed.

Lemma sm_inv_set_inotify_fd fd : sm_inv P (modify (set_inotify_fd fd)).
Proof. intros d H; exact H. Qed.

Lemma sm_inv_xdo_call o : sm_inv P (xdo_call o).
Proof.
  intros d H. unfold xdo_call.
  destruct (match o with OXdoType c => c =? 0 | _ => false end); [exact H|].
  unfold bind, get, modify, xdo, raise; simpl.
  destruct (xdo_results d) as [|[] rest]; exact H.
Qed.

End SmInv.

Create HintDb sminv.
#[export] Hint Resolve sm_inv_ret sm_inv_raise sm_inv_get sm_inv_liftR sm_inv_write
  sm_inv_syn sm_inv_xdo sm_inv_write_key sm_inv_upd_config sm_inv_set_xdotool_available
  sm_inv_set_inotify_fd sm_inv_xdo_call : sminv.

(** Break a computation into the primitive steps above. *)
Ltac sm_inv_steps :=
  repeat first
    [ apply sm_inv_bind; intros
    | apply sm_inv_try; intros
    | apply sm_inv_mfor; intros
    | progress (eauto with sminv)
    | match goal with
      | |- sm_inv _ (if ?b then _ else _) => destruct b
      | |- sm_inv _ (match ?x with _ => _ end) => destruct x
      | |- sm_inv _ (let '(_, _) := ?x in _) => destruct x
      end ].

Section Frozen.
Variable P : machine -> Prop.

Lemma emit_key_inv k v ms : sm_inv P (emit_key k v ms).
Proof. unfold emit_key. sm_inv_steps. Qed.

Lemma emit_char_inv c : sm_inv P (emit_char c).
Proof. unfold emit_char, emit_unicode_char. sm_inv_steps. Qed.

Lemma release_if_set_inv k : sm_inv P (release_if_set k).
Proof. unfold release_if_set. sm_inv_steps. Qed.

#[local] Hint Resolve emit_key_inv emit_char_inv : sminv.

Lemma emit_output_inv : forall a b, sm_inv P (emit_output a b).
Proof.
  intros a. induction a as [data|k|k ms|l Hl] using action_ind'; intros b; simpl.
  - unfold emit_string_data, emit_string, one_char. sm_inv_steps.
  - sm_inv_steps.
  - sm_inv_steps.
  - generalize true. induction Hl as [|x l Hx Hl IH]; intros first.
    + apply sm_inv_ret.
    + apply sm_inv_bind; auto.
Qed.

Lemma load_config_inv f : sm_inv P (load_config f).
Proof.
  unfold load_config, load_enabled_configs, load_sequence_file, load_sequence_file_with,
    load_single_config, load_compose_entry, load_target.
  sm_inv_steps.
Qed.

End Frozen.

Lemma cancel_compose_idle_ok : sm_inv idle_ok cancel_compose.
Proof. apply sm_inv_upd_sm. intros m _ _. simpl. auto 6. Qed.

Lemma force_release_all_idle_ok : sm_inv idle_ok force_release_all.
Proof.
  unfold force_release_all, release_if_set.
  sm_inv_steps. apply cancel_compose_idle_ok.
Qed.

#[local] Hint Resolve cancel_compose_idle_ok force_release_all_idle_ok emit_output_inv
  release_if_set_inv : sminv.

Lemma check_timeout_idle_ok now : sm_inv idle_ok (check_timeout now).
Proof.
  unfold check_timeout, replay_trigger_compose. sm_inv_steps.
Qed.

Lemma handle_event_idle_ok now ev : sm_inv idle_ok (handle_event now ev).
Proof.
  unfold handle_event, handle_idle, handle_trigger_pressed, handle_compose_pressed,
    handle_waiting_target, trigger_then_key, pass_through, replay_trigger_compose.
  sm_inv_steps;
  try (apply sm_inv_upd_sm; intros m Hm Hidle; simpl in *; first [discriminate | exact (Hm Hidle)]).
Qed.

Lemma reload_config_idle_ok f : sm_inv idle_ok (reload_config f).
Proof.
  unfold reload_config. apply sm_inv_try.
  - apply sm_inv_bind; [apply load_config_inv | intros; apply force_release_all_idle_ok].
  - intros; apply sm_inv_ret.
Qed.

(** C10: in every reachable daemon state, when the machine is [IDLE] the
    fields [current_trigger] and [current_compose] are [None],
    [compose_shifted] is false and both start times are 0: initially and
    after every return to [IDLE] (match, replay, timeout, pass-through,
    ESC/force-release, reload). *)
Theorem idle_fields_reset : forall d, reachable d -> idle_ok (sm d).
Proof.
  induction 1 as [f xdo d Hinit | now ev d _ IH | now d _ IH | d _ IH | f d _ IH | r d _ IH].
  - unfold daemon_init in Hinit.
    destruct (load_config f _) as [[e|u] d1]; [discriminate|].
    injection Hinit as <-. intros _. simpl. auto 6.
  - exact (handle_event_idle_ok now ev d IH).
  - exact (check_timeout_idle_ok now d IH).
  - exact (force_release_all_idle_ok d IH).
  - exact (reload_config_idle_ok f d IH).
  - exact IH.
Qed.

(** ** Replay and force-release *)

(** C7: a target key press in [WAITING_TARGET] (a key that is neither a
    modifier nor ESC) for which neither the lookup nor the unshifted
    fallback finds a sequence writes exactly: trigger press and release,
    LeftShift press if [compose_shifted], compose press and release,
    LeftShift release if [compose_shifted], then the physical target press
    (each followed by a syn), and resets the machine to [IDLE]. *)
Theorem replay_on_no_match :
  forall d now kc t c,
    state (sm d) = WAITING_TARGET ->
    current_trigger (sm d) = Some t ->
    current_compose (sm d) = Some c ->
    is_modifier kc = false ->
    kc <> E.KEY_ESC ->
    match_target (config d) (sm d)
      (fst (build_target_keys (config d) (set_add kc (pressed_keys (sm d))) kc))
      (snd (build_target_keys (config d) (set_add kc (pressed_keys (sm d))) kc)) = None ->
    let r := handle_event now (mkEvent E.EV_KEY kc 1) d in
    fst r = inr tt
    /\ uinput (snd r) = uinput d ++ replay_evs t c (compose_shifted (sm d)) ++ [kev kc 1; OSyn]
    /\ state (sm (snd r)) = IDLE.
Proof.
  intros [cfg vck ts xd u [s p tr co cs cst tst]] now kc t c Hs Ht Hc Hmod Hesc Hnm.
  cbn -[build_target_keys match_target] in *. subst s tr co.
  unfold handle_event, handle_waiting_target.
  assert (E1 : (kc =? E.KEY_ESC) = false) by (apply Z.eqb_neq; exact Hesc).
  cbn -[build_target_keys match_target]. rewrite E1, Hmod.
  destruct (build_target_keys cfg (set_add kc p) kc) as [tk sh] eqn:Hb.
  cbn -[build_target_keys match_target] in Hnm |- *.
  (* [match_target] reads only the trigger, compose and shift slots *)
  match goal with
  | |- context [match_target cfg ?m tk sh] =>
      replace (match_target cfg m tk sh) with (@None keyseq) by (symmetry; exact Hnm)
  end.
  unfold replay_trigger_compose, replay_evs. simpl.
  destruct cs; simpl; repeat split; rewrite <- !app_assoc; reflexivity.
Qed.

Lemma replay_on_no_match_witness :
  uinput (snd (handle_event 0 (mkEvent E.EV_KEY E.KEY_Q 1) (daemon_in waiting_demo)))
  = replay_evs E.KEY_LEFTALT E.KEY_SEMICOLON false ++ [kev E.KEY_Q 1; OSyn].
Proof.
  apply (replay_on_no_match (daemon_in waiting_demo) 0 E.KEY_Q E.KEY_LEFTALT E.KEY_SEMICOLON);
    try reflexivity; try discriminate.
Defined.

(** C8: an ESC press in any state other than [IDLE] writes the release of
    [current_trigger] and of [current_compose] (for those that are set),
    then the releases of LeftShift and RightShift, does not forward the
    ESC press, and leaves the machine in [IDLE], so the next event is
    handled there.  (Key code 0, which is falsy in Python and never sent by
    the kernel, is excluded for the two slots.) *)
Theorem esc_force_release :
  forall d now,
    state (sm d) <> IDLE ->
    (forall k, current_trigger (sm d) = Some k -> k <> 0) ->
    (forall k, current_compose (sm d) = Some k -> k <> 0) ->
    let r := handle_event now (mkEvent E.EV_KEY E.KEY_ESC 1) d in
    fst r = inr tt
    /\ uinput (snd r) = uinput d ++ release_evs (current_trigger (sm d))
                        ++ release_evs (current_compose (sm d))
                        ++ [kev E.KEY_LEFTSHIFT 0; OSyn; kev E.KEY_RIGHTSHIFT 0; OSyn]
    /\ state (sm (snd r)) = IDLE.
Proof.
  intros [cfg vck ts xd u [s p tr co cs cst tst]] now Hs Ht Hc.
  simpl in *.
  destruct s; [congruence | | |]; clear Hs;
  unfold handle_event; cbn;
  destruct tr as [t|], co as [c|]; simpl;
  repeat match goal with
         | H : forall k, Some ?x = Some k -> k <> 0 |- _ =>
             let E := fresh in
             assert (E : (x =? 0) = false) by (apply Z.eqb_neq; apply H; reflexivity);
             rewrite E; clear H
         end; simpl; repeat split; rewrite <- ?app_assoc; reflexivity.
Qed.

Lemma esc_force_release_witness :
  state (sm (snd (handle_event 0 (mkEvent E.EV_KEY E.KEY_ESC 1) (daemon_in waiting_demo)))) = IDLE.
Proof.
  apply (esc_force_release (daemon_in waiting_demo) 0).
  - discriminate.
  - intros k H; injection H as <-; discriminate.
  - intros k H; injection H as <-; discriminate.
Defined.

(** ** Modifier events in [COMPOSE_PRESSED] *)

Lemma is_modifier_not_esc k : is_modifier k = true -> k <> E.KEY_ESC.
Proof.
  unfold is_modifier, MODIFIER_KEYS, mem; simpl; intros H ->; discriminate.
Qed.

Ltac split_ifs :=
  repeat match goal with
         | |- context [if ?b then _ else _] =>
             lazymatch b with
             | true => fail
             | false => fail
             | _ => destruct b eqn:?
             end
         end.

Lemma is_modifier_in k : is_modifier k = true -> In k MODIFIER_KEYS.
Proof.
  unfold is_modifier, mem. intros H. apply existsb_exists in H as [x [Hx Hk]].
  apply Z.eqb_eq in Hk. subst. exact Hx.
Qed.

(** C4 (amended): in [COMPOSE_PRESSED] a modifier-key event raises nothing
    and leaves the machine in [COMPOSE_PRESSED], except a release of the
    trigger or of the compose key after which neither of them is held,
    which moves it to [WAITING_TARGET]; a Shift release is forwarded to the
    virtual device as the first event the handler writes. *)
Theorem compose_pressed_modifier :
  forall d now k v,
    state (sm d) = COMPOSE_PRESSED ->
    is_modifier k = true ->
    let r := handle_event now (mkEvent E.EV_KEY k v) d in
    fst r = inr tt
    /\ state (sm (snd r)) = compose_pressed_next (sm d) k v
    /\ (v = 0 -> is_shift k = true ->
        exists rest, uinput (snd r) = uinput d ++ kev k 0 :: OSyn :: rest).
Proof.
  intros [cfg vck ts xd u [s p tr co cs cst tst]] now k v Hs Hk.
  cbn in Hs. subst s.
  apply is_modifier_in in Hk.
  unfold MODIFIER_KEYS in Hk.
  destruct (Z.eqb_spec v 0) as [->|H0];
  [|destruct (Z.eqb_spec v 1) as [->|H1];
    [|destruct (Z.eqb_spec v 2) as [->|H2]]];
  repeat match goal with H : ?a <> ?b |- _ => apply Z.eqb_neq in H end;
  unfold handle_event, handle_compose_pressed, compose_pressed_next, pass_through;
  rewrite ?H0, ?H1, ?H2;
  simpl in Hk; intuition subst; cbn; rewrite ?H0, ?H1, ?H2; cbn;
  try (destruct (key_is _ _ || key_is _ _); cbn;
       [destruct (not_pressed _ _ && not_pressed _ _)|]);
  cbn; repeat split; try discriminate; try (intros; eexists; rewrite <- ?app_assoc; reflexivity).
Qed.

Lemma compose_pressed_modifier_witness :
  state (sm (snd (handle_event 0 (mkEvent E.EV_KEY E.KEY_LEFTALT 0) (daemon_in compose_demo))))
  = WAITING_TARGET.
Proof.
  apply (compose_pressed_modifier (daemon_in compose_demo) 0 E.KEY_LEFTALT 0);
    reflexivity.
Defined.

(** In [compose_demo]: releasing the trigger LeftAlt changes the state; a
    LeftCtrl press is written to the virtual device; a LeftShift release is
    written twice. *)
Lemma compose_pressed_modifier_counterexample :
  state (sm (snd (handle_event 0 (mkEvent E.EV_KEY E.KEY_LEFTALT 0) (daemon_in compose_demo))))
    = WAITING_TARGET
  /\ uinput (snd (handle_event 0 (mkEvent E.EV_KEY E.KEY_LEFTCTRL 1) (daemon_in compose_demo)))
    = [kev E.KEY_LEFTCTRL 1; OSyn]
  /\ uinput (snd (handle_event 0 (mkEvent E.EV_KEY E.KEY_LEFTSHIFT 0) (daemon_in compose_demo)))
    = [kev E.KEY_LEFTSHIFT 0; OSyn; kev E.KEY_LEFTSHIFT 0; OSyn].
Proof. vm_compute. repeat split. Qed.

(** ** Order of the target part of the lookup key *)

(** C5 (amended): the target part [build_target_keys] builds for a press of
    [kc] lists the held modifiers as Alt (when an Alt key is held and [kc]
    is not a trigger key), then Ctrl, then Shift, then [kc]: each modifier
    is inserted at the front, so the last one inserted comes first. *)
Theorem target_keys_order :
  forall c pressed kc,
    let shift := mem E.KEY_LEFTSHIFT pressed || mem E.KEY_RIGHTSHIFT pressed in
    let ctrl := mem E.KEY_LEFTCTRL pressed || mem E.KEY_RIGHTCTRL pressed in
    let alt := (mem E.KEY_LEFTALT pressed || mem E.KEY_RIGHTALT pressed)
               && negb (mem kc (trigger_keys_list c)) in
    build_target_keys c pressed kc
    = ((if alt then [E.KEY_LEFTALT] else [])
       ++ (if ctrl then [E.KEY_LEFTCTRL] else [])
       ++ (if shift then [E.KEY_LEFTSHIFT] else [])
       ++ [kc], shift).
Proof.
  intros c pressed kc shift ctrl alt.
  unfold build_target_keys. fold shift ctrl alt.
  destruct alt, ctrl, shift; reflexivity.
Qed.

(** With Shift and Ctrl held, the target part is [LeftCtrl; LeftShift; a]. *)
Lemma target_keys_order_counterexample :
  fst (build_target_keys cfg_demo [E.KEY_LEFTSHIFT; E.KEY_LEFTCTRL; E.KEY_A] E.KEY_A)
  = [E.KEY_LEFTCTRL; E.KEY_LEFTSHIFT; E.KEY_A]
  /\ fst (build_target_keys cfg_demo [E.KEY_LEFTSHIFT; E.KEY_LEFTCTRL; E.KEY_A] E.KEY_A)
     <> [E.KEY_LEFTSHIFT; E.KEY_LEFTCTRL; E.KEY_A].
Proof. vm_compute. split; [reflexivity | discriminate]. Qed.

(** ** Upper-casing of a shifted String output *)

Lemma pystr_eqb_eq a b : pystr_eqb a b = true -> a = b.
Proof.
  revert b; induction a as [|x a IH]; intros [|y b]; simpl; try discriminate; auto.
  intros H. apply andb_true_iff in H as [H1 H2].
  apply Z.eqb_eq in H1. f_equal; auto.
Qed.

(** A property of [py_upper] on single code points, checked on a range of
    code points by evaluation. *)
Lemma upper_range (lo : Z) (n : nat) (ok : Z -> bool) (u : Z -> pystr) :
  forallb (fun c => negb (ok c) || pystr_eqb (py_upper [c]) (u c))
    (map (fun i => lo + Z.of_nat i) (seq 0 n)) = true ->
  forall c, lo <= c < lo + Z.of_nat n -> ok c = true -> py_upper [c] = u c.
Proof.
  intros H c Hc Hok. rewrite forallb_forall in H.
  assert (Hin : In c (map (fun i => lo + Z.of_nat i) (seq 0 n))).
  { apply in_map_iff. exists (Z.to_nat (c - lo)). split; [lia|]. apply in_seq. lia. }
  specialize (H c Hin). rewrite Hok in H. apply pystr_eqb_eq. exact H.
Qed.

(** C6 (amended): for a String action with [target_was_shifted],
    [emit_output] emits [str.upper] of the configured text, code point by
    code point, with Python's Unicode case mapping: ASCII letters, and
    non-ASCII letters that have an upper-case form, are upper-cased (for
    example the Latin-1 letters U+00E0..U+00FE but U+00F7, the Latin
    Extended-A pairs U+0101..U+012F, Greek alpha..omega but final sigma,
    Cyrillic U+0430..U+044F), and some characters expand: U+00DF (sharp s)
    becomes "SS", U+FB01 (fi ligature) becomes "FI". *)
Theorem shifted_string_upper :
  forall s d,
    emit_output (AString (JStr s)) true d = emit_string (py_upper s) d
    /\ py_upper s = flat_map py_upper_cp s
    /\ (forall c, 97 <= c <= 122 -> py_upper [c] = [c - 32])
    /\ (forall c, 224 <= c <= 254 -> c <> 247 -> py_upper [c] = [c - 32])
    /\ (forall c, 257 <= c <= 303 -> Z.odd c = true -> py_upper [c] = [c - 1])
    /\ (forall c, 945 <= c <= 969 -> c <> 962 -> py_upper [c] = [c - 32])
    /\ (forall c, 1072 <= c <= 1103 -> py_upper [c] = [c - 32])
    /\ py_upper [223] = [83; 83]
    /\ py_upper [64257] = [70; 73].
Proof.
  intros s d. split; [reflexivity | split; [reflexivity |]].
  split; [|split; [|split; [|split; [|split; [|split; vm_compute; reflexivity]]]]].
  - intros c Hc.
    apply (upper_range 97 26 (fun _ => true) (fun c => [c - 32])); [vm_compute; reflexivity | lia | reflexivity].
  - intros c Hc Hne.
    apply (upper_range 224 31 (fun c => negb (c =? 247)) (fun c => [c - 32]));
      [vm_compute; reflexivity | lia | apply negb_true_iff, Z.eqb_neq; exact Hne].
  - intros c Hc Hodd.
    apply (upper_range 257 47 Z.odd (fun c => [c - 1])); [vm_compute; reflexivity | lia | exact Hodd].
  - intros c Hc Hne.
    apply (upper_range 945 25 (fun c => negb (c =? 962)) (fun c => [c - 32]));
      [vm_compute; reflexivity | lia | apply negb_true_iff, Z.eqb_neq; exact Hne].
  - intros c Hc.
    apply (upper_range 1072 32 (fun _ => true) (fun c => [c - 32])); [vm_compute; reflexivity | lia | reflexivity].
Qed.

(** With xdotool available, a shifted "ä" is typed as "Ä" (U+00C4) and a
    shifted Cyrillic "я" as "Я" (U+042F), both with Shift held, not
    unchanged; a shifted "ß" becomes two characters. *)
Lemma shifted_string_upper_counterexample :
  uinput (snd (emit_output (AString (JStr [228])) true (daemon_in machine_init)))
    = [OXdoKeydownShift; OXdoType 196; OXdoKeyupShift]
  /\ uinput (snd (emit_output (AString (JStr [1103])) true (daemon_in machine_init)))
    = [OXdoKeydownShift; OXdoType 1071; OXdoKeyupShift]
  /\ List.length (py_upper [223]) = 2%nat.
Proof. vm_compute. split; [reflexivity | split; reflexivity]. Qed.

(** ** Startup and hotplug device filters *)

(** C9: hotplug grabs [kbd_with_pointer], the startup scan skips it. *)
Lemma hotplug_filter_counterexample :
  hotplug_admits (py "kbd-with-touchpad") kbd_with_pointer = true
  /\ startup_admits (py "kbd-with-touchpad") kbd_with_pointer = false.
Proof. vm_compute. split; reflexivity. Qed.

(** Every device the startup scan admits is also admitted on hotplug: four
    of the six reference keys of the hotplug filter are among any eight of
    the ten of the startup filter. *)
Theorem startup_implies_hotplug :
  forall name caps, startup_admits name caps = true -> hotplug_admits name caps = true.
Proof.
  intros name caps H. unfold startup_admits in H. unfold hotplug_admits.
  destruct (pystr_eqb name VIRTUAL_NAME); [discriminate|].
  destruct (caps_get caps E.EV_KEY) as [kc|]; [|discriminate]. simpl.
  repeat match type of H with
         | (if ?b then _ else _) = true => destruct b; [try discriminate|]
         end.
  revert H. unfold inter_count, REAL_KEYBOARD_KEYS, REAL_KEYS. simpl.
  destruct (mem E.KEY_A (cap_ints kc)), (mem E.KEY_B (cap_ints kc)),
    (mem E.KEY_C (cap_ints kc)), (mem E.KEY_D (cap_ints kc)),
    (mem E.KEY_E (cap_ints kc)), (mem E.KEY_SPACE (cap_ints kc)),
    (mem E.KEY_ENTER (cap_ints kc)), (mem E.KEY_BACKSPACE (cap_ints kc)),
    (mem E.KEY_LEFTSHIFT (cap_ints kc)), (mem E.KEY_LEFTCTRL (cap_ints kc));
    simpl; intro H; first [reflexivity | discriminate].
Qed.

(** ** Reload errors *)

Lemma load_config_from_cleared f d :
  load_config f d = load_config f (set_config (clear_tables (config d)) d).
Proof. destruct d as [[] vck ts xd u m]. reflexivity. Qed.

(** C1 (amended): when [load_config] raises an exception other than
    [SystemExit] during [reload_config], the exception is caught and the
    daemon goes on, but with the configuration [load_config] left behind
    (no force-release runs); that configuration does not depend on the
    trigger keys, passthrough keys and sequence table in effect before the
    reload, since [load_config] clears them first. *)
Theorem reload_error_no_rollback :
  forall f d e d1,
    load_config f d = (inl e, d1) ->
    e <> SystemExit ->
    reload_config f d = (inr tt, d1)
    /\ load_config f (set_config (clear_tables (config d)) d) = (inl e, d1).
Proof.
  intros f d e d1 H He. split.
  - unfold reload_config, try_except, bind. rewrite H.
    destruct e; try contradiction; reflexivity.
  - rewrite <- load_config_from_cleared. exact H.
Qed.

Lemma reload_error_no_rollback_witness :
  reload_config fs_bad_trigger daemon_de
  = (inr tt, snd (load_config fs_bad_trigger daemon_de)).
Proof.
  apply (reload_error_no_rollback fs_bad_trigger daemon_de TypeError
           (snd (load_config fs_bad_trigger daemon_de))).
  - vm_compute. reflexivity.
  - discriminate.
Defined.

(** A reload on [fs_bad_trigger] succeeds as a call but leaves the daemon
    started on [fs_de] with no trigger key and an empty sequence table. *)
Lemma reload_error_no_rollback_counterexample :
  fst (reload_config fs_bad_trigger daemon_de) = inr tt
  /\ sequences (config daemon_de) <> []
  /\ trigger_keys_list (config daemon_de) = [E.KEY_LEFTALT]
  /\ sequences (config (snd (reload_config fs_bad_trigger daemon_de))) = []
  /\ trigger_keys_list (config (snd (reload_config fs_bad_trigger daemon_de))) = [].
Proof. vm_compute. repeat split; try reflexivity; discriminate. Qed.

(** ** [valid_compose_keys] after a reload *)

(** C2: after a start on [fs_de] and a successful reload on
    [fs_de_apostrophe], [valid_compose_keys] still holds the old compose
    key [;] while the table only has ['] (a reachable state). *)
Lemma valid_compose_keys_reload_counterexample :
  reachable (snd (reload_config fs_de_apostrophe daemon_de))
  /\ fst (reload_config fs_de_apostrophe daemon_de) = inr tt
  /\ valid_compose_keys (snd (reload_config fs_de_apostrophe daemon_de)) = [E.KEY_SEMICOLON]
  /\ table_compose_keys (config (snd (reload_config fs_de_apostrophe daemon_de)))
     = [E.KEY_APOSTROPHE].
Proof.
  split.
  - apply reach_reload. apply (reach_init fs_de true). vm_compute. reflexivity.
  - vm_compute. repeat split; reflexivity.
Qed.

(** ** Output length limit *)

(** C3: 10,001 characters are rejected as a plain string but accepted in the
    ['string'] field of an object and as a string item of a list. *)
Lemma output_length_counterexample :
  parse_output (JStr (xs 10001)) = inl ValueError
  /\ parse_output (JStr (xs 10000)) = inr (AString (JStr (xs 10000)))
  /\ parse_output (JObj [(py "string", JStr (xs 10001))]) = inr (AString (JStr (xs 10001)))
  /\ parse_output (JArr [JStr (xs 10001)]) = inr (ASeq [AString (JStr (xs 10001))]).
Proof. vm_compute. repeat split; reflexivity. Qed.

Lemma idle_fields_reset_witness :
  idle_ok (sm (snd (reload_config fs_bad_trigger daemon_de))).
Proof.
  apply idle_fields_reset. apply reach_reload. apply (reach_init fs_de true).
  vm_compute. reflexivity.
Defined.

Lemma startup_implies_hotplug_witness :
  hotplug_admits (py "AT keyboard") plain_keyboard = true.
Proof. apply (startup_implies_hotplug (py "AT keyboard") plain_keyboard). vm_compute. reflexivity. Defined.

Section Inv.
Variable I : daemon -> Prop.

Lemma inv_ret {A} (a : A) : inv I (ret a).
Proof. intros d H; exact H. Qed.

Lemma inv_raise {A} (e : exc) : inv I (@raise A e).
Proof. intros d H; exact H. Qed.

Lemma inv_bind {A B} (m : M A) (k : A -> M B) :
  inv I m -> (forall a, inv I (k a)) -> inv I (bind m k).
Proof.
  intros Hm Hk d H. unfold bind.
  specialize (Hm d H). destruct (m d) as [[e|a] d']; simpl in *; auto.
  apply Hk; exact Hm.
Qed.

(** [x <- get ;; k x]: [k] may use that the state it got satisfies [I]. *)
Lemma inv_get_bind {B} (k : daemon -> M B) :
  (forall d0, I d0 -> I (snd (k d0 d0))) -> inv I (bind get k).
Proof. intros Hk d H. exact (Hk d H). Qed.

Lemma inv_try {A} (m : M A) catches (h : exc -> M A) :
  inv I m -> (forall e, inv I (h e)) -> inv I (try_except m catches h).
Proof.
  intros Hm Hh d H. unfold try_except.
  specialize (Hm d H). destruct (m d) as [[e|a] d']; simpl in *; auto.
  destruct (catches e); simpl; auto. apply Hh; exact Hm.
Qed.

Lemma inv_mfor_in {X} (l : list X) (f : X -> M unit) :
  (forall x, In x l -> inv I (f x)) -> inv I (mfor l f).
Proof.
  induction l as [|x l IH]; intros Hf; simpl.
  - apply inv_ret.
  - apply inv_bind; [apply Hf; left; reflexivity | intros _; apply IH; intros y Hy; apply Hf; right; exact Hy].
Qed.

Lemma inv_liftR {A} (r : res A) : inv I (liftR r).
Proof. destruct r; [apply inv_raise | apply inv_ret]. Qed.

Lemma inv_modify f : (forall d, I d -> I (f d)) -> inv I (modify f).
Proof. intros Hf d H; exact (Hf d H). Qed.

End Inv.

Lemma bind_ret {A B} (a : A) (k : A -> M B) : bind (ret a) k = k a.
Proof. reflexivity. Qed.

(** ** Safety of the event handlers *)

Lemma get_bind_run {B} (k : daemon -> M B) d : bind get k d = k d d.
Proof. reflexivity. Qed.

Lemma frame_of_inv {A} (m : M A) : (forall X, sm_inv (fun x => x = X) m) -> frame m.
Proof. intros H d. exact (H (sm d) d eq_refl). Qed.

Lemma frame_ret : frame (ret tt).
Proof. intros d. reflexivity. Qed.

Lemma frame_write t c v : frame (write t c v).
Proof. intros d. reflexivity. Qed.

Lemma frame_syn : frame syn.
Proof. intros d. reflexivity. Qed.

Lemma frame_write_key c v : frame (write_key (Some c) v).
Proof. intros d. reflexivity. Qed.

Lemma frame_bind (m : M unit) (k : unit -> M unit) :
  frame m -> (forall a, frame (k a)) -> frame (bind m k).
Proof.
  intros Hm Hk d. specialize (Hm d). unfold bind.
  destruct (m d) as [[e|a] d1]; simpl in *; [exact Hm | rewrite Hk; exact Hm].
Qed.

Lemma frame_get_bind (k : daemon -> M unit) : (forall d0, frame (k d0)) -> frame (bind get k).
Proof. intros Hk d. exact (Hk d d). Qed.

Lemma frame_emit_output a b : frame (emit_output a b).
Proof. apply frame_of_inv. intros X. apply emit_output_inv. Qed.

Lemma frame_release_if_set k : frame (release_if_set k).
Proof. apply frame_of_inv. intros X. apply release_if_set_inv. Qed.

(** A step that keeps the machine and may raise: if it raises, the run
    ends with the machine [m0]. *)
Lemma okp_frame_bind m0 (m : M unit) (k : unit -> M unit) :
  frame m -> machine_wf m0 -> okp m0 (k tt) -> okp m0 (bind m k).
Proof.
  intros Hm Hw Hk d Hs. specialize (Hm d). unfold bind.
  destruct (m d) as [[e|[]] d1]; simpl in *.
  - rewrite Hm, Hs. exact Hw.
  - apply Hk. congruence.
Qed.

Lemma okp_get_bind m0 (k : daemon -> M unit) :
  (forall d, sm d = m0 -> okp m0 (k d)) -> okp m0 (bind get k).
Proof. intros Hk d Hs. exact (Hk d Hs d Hs). Qed.

Lemma okp_frame m0 m : frame m -> machine_wf m0 -> okp m0 m.
Proof. intros Hm Hw d Hs. rewrite Hm, Hs. exact Hw. Qed.

Lemma okp_upd_sm m0 f : machine_wf (f m0) -> okp m0 (upd_sm f).
Proof. intros Hw d Hs. simpl. rewrite Hs. exact Hw. Qed.

Lemma okp_cancel m0 : okp m0 cancel_compose.
Proof. apply okp_upd_sm. exact I. Qed.

Ltac frame_steps :=
  repeat match goal with
         | |- frame (write_key (Some _) _) => apply frame_write_key
         | |- frame (release_if_set _) => apply frame_release_if_set
         | |- frame (emit_output _ _) => apply frame_emit_output
         | |- frame (bind get _) => apply frame_get_bind; intros
         | |- frame (bind _ _) => apply frame_bind; intros
         | |- frame (ret _) => apply frame_ret
         | |- frame (write _ _ _) => apply frame_write
         | |- frame syn => apply frame_syn
         | |- frame (if ?b then _ else _) => destruct b
         end.

Ltac wf_solve :=
  unfold machine_wf in *; simpl in *;
  first [exact I | assumption | congruence | intuition congruence].

Ltac okp_steps :=
  repeat match goal with
         | |- okp _ (bind get _) => apply okp_get_bind; intros ? ?
         | |- okp _ cancel_compose => apply okp_cancel
         | |- okp _ (upd_sm _) => apply okp_upd_sm; wf_solve
         | |- okp _ (bind cancel_compose _) => fail 1
         | |- okp _ (bind _ _) => apply okp_frame_bind; [solve [frame_steps] | wf_solve |]
         | |- okp _ (if ?b then _ else _) => destruct b
         | |- okp _ _ => apply okp_frame; [solve [frame_steps] | wf_solve]
         end.


Lemma release_if_set_no_raise k d : fst (release_if_set k d) = inr tt.
Proof. unfold release_if_set. destruct k as [c|]; [destruct (c =? 0)|]; reflexivity. Qed.

(** A step that keeps the machine and never raises. *)
Lemma okp_quiet_bind m0 (m : M unit) (k : unit -> M unit) :
  frame m -> (forall d, fst (m d) = inr tt) -> okp m0 (k tt) -> okp m0 (bind m k).
Proof.
  intros Hm Hq Hk d Hs. specialize (Hm d). specialize (Hq d). unfold bind.
  destruct (m d) as [[e|[]] d1]; simpl in *; [discriminate|].
  apply Hk. congruence.
Qed.

Lemma force_release_all_okp m0 : okp m0 force_release_all.
Proof.
  unfold force_release_all. apply okp_get_bind. intros d _.
  repeat (apply okp_quiet_bind;
          [solve [frame_steps] | intros; first [apply release_if_set_no_raise | reflexivity] |]).
  apply okp_cancel.
Qed.

Lemma handle_trigger_pressed_okp d k v :
  machine_wf (sm d) -> state (sm d) = TRIGGER_PRESSED ->
  okp (sm d) (handle_trigger_pressed d k v).
Proof.
  destruct d as [c vck ts xa u [s pk ct cc cs cst tst] xr ifd]; simpl.
  intros Hw ->. unfold machine_wf in Hw; simpl in Hw. destruct ct as [t|]; [|congruence].
  unfold handle_trigger_pressed, trigger_then_key, pass_through; simpl. okp_steps.
Qed.

Lemma handle_idle_okp d now k v :
  machine_wf (sm d) -> state (sm d) = IDLE ->
  okp (sm d) (handle_idle d now k v).
Proof.
  destruct d as [c vck ts xa u [s pk ct cc cs cst tst] xr ifd]; simpl.
  intros Hw ->. unfold handle_idle, pass_through; simpl. okp_steps.
Qed.

Lemma handle_compose_pressed_okp d now k v :
  machine_wf (sm d) -> state (sm d) = COMPOSE_PRESSED ->
  okp (sm d) (handle_compose_pressed d now k v).
Proof.
  destruct d as [c vck ts xa u [s pk ct cc cs cst tst] xr ifd]; simpl.
  intros Hw ->. unfold machine_wf in Hw; simpl in Hw.
  destruct Hw as [Hct Hcc]. destruct ct as [t|]; [|congruence]. destruct cc as [t'|]; [|congruence].
  unfold handle_compose_pressed, pass_through; simpl. okp_steps.
Qed.

Lemma handle_waiting_target_okp d k v :
  machine_wf (sm d) -> state (sm d) = WAITING_TARGET ->
  okp (sm d) (handle_waiting_target d k v).
Proof.
  destruct d as [c vck ts xa u [s pk ct cc cs cst tst] xr ifd]; simpl.
  intros Hw ->. unfold machine_wf in Hw; simpl in Hw.
  destruct Hw as [Hct Hcc]. destruct ct as [t|]; [|congruence]. destruct cc as [t'|]; [|congruence].
  unfold handle_waiting_target, pass_through, replay_trigger_compose;
    cbn [sm config state pressed_keys current_trigger current_compose compose_shifted].
  destruct (is_modifier k); [okp_steps|].
  destruct (v =? 1); [|okp_steps].
  destruct (build_target_keys c pk k) as [tk sh].
  match goal with
  | |- context [match_target ?c0 ?m tk sh] => destruct (match_target c0 m tk sh) as [ks|]
  end; simpl; okp_steps.
Qed.

Lemma check_timeout_okp now m0 : machine_wf m0 -> okp m0 (check_timeout now).
Proof.
  intros Hw. unfold check_timeout. apply okp_get_bind. intros d Hs. rewrite Hs.
  destruct m0 as [s pk ct cc cs cst tst]. unfold machine_wf in Hw. simpl in *.
  destruct s; [okp_steps| |okp_steps|].
  - destruct ct as [t|]; [|congruence]. okp_steps.
  - destruct Hw as [Hct Hcc]. destruct ct as [t|]; [|congruence]. destruct cc as [t'|]; [|congruence].
    unfold replay_trigger_compose; simpl. okp_steps.
Qed.

Lemma handle_event_okp now ev m0 : machine_wf m0 -> okp m0 (handle_event now ev).
Proof.
  intros Hw d Hs. unfold handle_event.
  destruct (negb (ev_type ev =? E.EV_KEY)).
  { exact (okp_frame m0 _ (frame_write _ _ _) Hw d Hs). }
  set (d1 := snd (upd_sm (fun m => mkMachine (state m)
              (if ev_value ev =? 1 then set_add (ev_code ev) (pressed_keys m)
               else if ev_value ev =? 0 then set_discard (ev_code ev) (pressed_keys m)
               else pressed_keys m)
              (current_trigger m) (current_compose m) (compose_shifted m)
              (compose_start_time m) (trigger_start_time m)) d)).
  assert (Hw1 : machine_wf (sm d1)).
  { subst d1. simpl. rewrite Hs. destruct m0 as [[] ? [] [] ? ? ?]; exact Hw. }
  change (machine_wf (sm (snd ((d <- get ;;
    let s := state (sm d) in
    if (ev_value ev =? 2) && negb (st_eqb s IDLE) then ret tt
    else if (ev_code ev =? E.KEY_ESC) && (ev_value ev =? 1) && negb (st_eqb s IDLE) then
      force_release_all
    else match s with
         | IDLE => handle_idle d now (ev_code ev) (ev_value ev)
         | TRIGGER_PRESSED => handle_trigger_pressed d (ev_code ev) (ev_value ev)
         | COMPOSE_PRESSED => handle_compose_pressed d now (ev_code ev) (ev_value ev)
         | WAITING_TARGET => handle_waiting_target d (ev_code ev) (ev_value ev)
         end) d1)))).
  unfold bind at 1, get at 1. cbv beta iota zeta.
  revert Hw1. generalize d1. clear d1. intros d1 Hw1.
  destruct (_ && _).
  { exact Hw1. }
  destruct (_ && _ && _).
  { exact (force_release_all_okp (sm d1) d1 eq_refl). }
  destruct (state (sm d1)) eqn:Est.
  - exact (handle_idle_okp d1 now _ _ Hw1 Est d1 eq_refl).
  - exact (handle_trigger_pressed_okp d1 _ _ Hw1 Est d1 eq_refl).
  - exact (handle_compose_pressed_okp d1 now _ _ Hw1 Est d1 eq_refl).
  - exact (handle_waiting_target_okp d1 _ _ Hw1 Est d1 eq_refl).
Qed.

Lemma reload_config_wf f d : machine_wf (sm d) -> machine_wf (sm (snd (reload_config f d))).
Proof.
  intros Hw. unfold reload_config, try_except, bind.
  pose proof (load_config_inv machine_wf f d Hw) as Hw1.
  destruct (load_config f d) as [[e|[]] d1]; simpl in Hw1.
  - destruct (is_exception e); exact Hw1.
  - pose proof (force_release_all_okp (sm d1) d1 eq_refl) as Hw2.
    destruct (force_release_all d1) as [[e'|[]] d2]; simpl in *;
      [destruct (is_exception e') |]; assumption.
Qed.

(** Every reachable state satisfies [machine_wf]. *)
Lemma reachable_wf d : reachable d -> machine_wf (sm d).
Proof.
  induction 1 as [f xdo d Hinit | now ev d _ IH | now d _ IH | d _ IH | f d _ IH | r d _ IH].
  - unfold daemon_init in Hinit.
    destruct (load_config f _) as [[e|u] d1]; [discriminate|].
    injection Hinit as <-. exact I.
  - exact (handle_event_okp now ev _ IH d eq_refl).
  - exact (check_timeout_okp now _ IH d eq_refl).
  - exact (force_release_all_okp (sm d) d eq_refl).
  - exact (reload_config_wf f d IH).
  - exact IH.
Qed.



(** X3: in every state the daemon can reach, the slots the current state
    relies on are set: [current_trigger] in TRIGGER_PRESSED, and
    [current_trigger] and [current_compose] in COMPOSE_PRESSED and
    WAITING_TARGET. *)
Theorem reachable_machine_wf d : reachable d ->
  match state (sm d) with
  | IDLE => True
  | TRIGGER_PRESSED => current_trigger (sm d) <> None
  | COMPOSE_PRESSED | WAITING_TARGET =>
      current_trigger (sm d) <> None /\ current_compose (sm d) <> None
  end.
Proof. intros Hr. exact (reachable_wf d Hr). Qed.


(** Breaking a handler into the [sm_inv] steps, where every [upd_sm]
    keeps the set of pressed keys. *)
Lemma handler_keeps_pressed now ev (X : list Z) :
  sm_inv (fun m => pressed_keys m = X)
    (d <- get ;;
     let s := state (sm d) in
     if (ev_value ev =? 2) && negb (st_eqb s IDLE) then ret tt
     else if (ev_code ev =? E.KEY_ESC) && (ev_value ev =? 1) && negb (st_eqb s IDLE) then
       force_release_all
     else match s with
          | IDLE => handle_idle d now (ev_code ev) (ev_value ev)
          | TRIGGER_PRESSED => handle_trigger_pressed d (ev_code ev) (ev_value ev)
          | COMPOSE_PRESSED => handle_compose_pressed d now (ev_code ev) (ev_value ev)
          | WAITING_TARGET => handle_waiting_target d (ev_code ev) (ev_value ev)
          end).
Proof.
  unfold force_release_all, cancel_compose, release_if_set, handle_idle, handle_trigger_pressed,
    handle_compose_pressed, handle_waiting_target, trigger_then_key, pass_through,
    replay_trigger_compose.
  sm_inv_steps;
  first [apply sm_inv_upd_sm; intros m Hm; simpl; exact Hm | apply emit_output_inv].
Qed.

(** X5: after [handle_event] on a key event, [pressed_keys] is the old set
    with the key added (value 1) or discarded (value 0), and unchanged for
    any other value, whatever the state machine does with the event. *)
Theorem handle_event_pressed_keys now k v d :
  pressed_keys (sm (snd (handle_event now (mkEvent E.EV_KEY k v) d))) =
  (if v =? 1 then set_add k (pressed_keys (sm d))
   else if v =? 0 then set_discard k (pressed_keys (sm d))
   else pressed_keys (sm d)).
Proof.
  unfold handle_event. cbn [ev_type ev_code ev_value]. rewrite Z.eqb_refl. cbn [negb].
  unfold bind at 1, upd_sm, modify.
  apply (handler_keeps_pressed now (mkEvent E.EV_KEY k v)). reflexivity.
Qed.

(** X6: a key-repeat event (value 2) changes nothing in the daemon but its
    output: in IDLE it is passed through as one write and a SYN, in the
    other states it is dropped. *)
Theorem handle_event_repeat now k d :
  handle_event now (mkEvent E.EV_KEY k 2) d =
  if st_eqb (state (sm d)) IDLE
  then (inr tt, set_uinput (uinput d ++ [OWrite E.EV_KEY k 2; OSyn]) d)
  else (inr tt, d).
Proof.
  destruct d as [c vck ts xa u [s pk ct cc cs cst tst]].
  destruct s; [|reflexivity..].
  unfold handle_event, handle_idle, pass_through, write, syn, modify, upd_sm, bind, get,
    set_uinput, set_sm.
  cbn. rewrite andb_false_r. cbn. rewrite <- app_assoc. reflexivity.
Qed.

(** X7: [check_timeout] does nothing at all (no output, no state change)
    while the deadline of the current state is not reached: in
    TRIGGER_PRESSED while [now - trigger_start_time < timeout_sec], in
    WAITING_TARGET while [now - compose_start_time < timeout_sec], and always
    in IDLE and COMPOSE_PRESSED. *)
Theorem check_timeout_before_deadline now d :
  (state (sm d) = TRIGGER_PRESSED -> now - trigger_start_time (sm d) < timeout_sec d) ->
  (state (sm d) = WAITING_TARGET -> now - compose_start_time (sm d) < timeout_sec d) ->
  check_timeout now d = (inr tt, d).
Proof.
  intros Ht Hw. unfold check_timeout. rewrite get_bind_run. cbv zeta.
  destruct (state (sm d)) eqn:Es; try reflexivity.
  - specialize (Ht eq_refl). destruct (timeout_sec d <=? now - trigger_start_time (sm d)) eqn:E;
      [apply Z.leb_le in E; lia | reflexivity].
  - specialize (Hw eq_refl). destruct (timeout_sec d <=? now - compose_start_time (sm d)) eqn:E;
      [apply Z.leb_le in E; lia | reflexivity].
Qed.

(** ** [valid_compose_keys] between reloads *)

Lemma mem_In k l : mem k l = true <-> In k l.
Proof.
  unfold mem. rewrite existsb_exists. split.
  - intros [x [Hx E]]. apply Z.eqb_eq in E. subst. exact Hx.
  - intros H. exists k. split; [exact H | apply Z.eqb_refl].
Qed.

Lemma set_add_In k x l : In x (set_add k l) <-> x = k \/ In x l.
Proof.
  unfold set_add. destruct (mem k l) eqn:E.
  - apply mem_In in E. split; [auto | intros [->|H]; auto].
  - rewrite in_app_iff. simpl. split; intros [H|H]; intuition.
Qed.

Lemma set_add_NoDup k l : NoDup l -> NoDup (set_add k l).
Proof.
  intros H. unfold set_add. destruct (mem k l) eqn:E; [exact H|].
  apply NoDup_app; [exact H | repeat constructor; auto | ].
  intros x Hx [Hk|[]]. subst x. apply mem_In in Hx. congruence.
Qed.

Lemma compute_valid_compose_keys_spec s :
  NoDup (compute_valid_compose_keys s)
  /\ forall k, In k (compute_valid_compose_keys s) <->
               exists e, In e s /\ lk_compose (fst e) = k.
Proof.
  unfold compute_valid_compose_keys.
  assert (H : forall acc, NoDup acc ->
    NoDup (fold_left (fun acc kv => set_add (lk_compose (fst kv)) acc) s acc)
    /\ forall k, In k (fold_left (fun acc kv => set_add (lk_compose (fst kv)) acc) s acc) <->
                 In k acc \/ exists e, In e s /\ lk_compose (fst e) = k).
  { induction s as [|e s IH]; intros acc Hacc; simpl.
    - split; [exact Hacc|]. intros k. split; [auto | intros [H|[e [[] _]]]; exact H].
    - destruct (IH (set_add (lk_compose (fst e)) acc) (set_add_NoDup _ _ Hacc)) as [Hn Hi].
      split; [exact Hn|]. intros k. rewrite Hi, set_add_In. split.
      + intros [[->|H]|[e' [He' Hk]]]; eauto.
      + intros [H|[e' [[<-|He'] Hk]]]; eauto. }
  destruct (H [] (NoDup_nil _)) as [Hn Hi]. split; [exact Hn|].
  intros k. rewrite Hi. split; [intros [[]|H']; exact H' | auto].
Qed.

Lemma inv_get_bind' (I : daemon -> Prop) {B} (k : daemon -> M B) :
  (forall d0, inv I (k d0)) -> inv I (bind get k).
Proof. intros Hk d H. exact (Hk d d H). Qed.

Lemma xdo_call_cfg C V o : inv (cfg_fixed C V) (xdo_call o).
Proof.
  intros d H. unfold xdo_call.
  destruct (match o with OXdoType c => c =? 0 | _ => false end); [exact H|].
  unfold bind, get, modify, xdo, raise; simpl.
  destruct (xdo_results d) as [|[] rest]; exact H.
Qed.

Ltac cf_steps :=
  repeat match goal with
         | |- inv _ (xdo_call _) => apply xdo_call_cfg
         | |- inv _ (try_except _ _ _) => apply inv_try; intros
         | |- inv _ (modify _) => apply inv_modify; intros ? ?; assumption
         | |- inv _ (bind get _) => apply inv_get_bind'; intros
         | |- inv _ (bind _ _) => apply inv_bind; intros
         | |- inv _ (mfor _ _) => apply inv_mfor_in; intros
         | |- inv _ (ret _) => apply inv_ret
         | |- inv _ (raise _) => apply inv_raise
         | |- inv _ (write_key ?k _) => destruct k; unfold write_key
         | |- inv _ (write _ _ _) => apply inv_modify; intros ? ?; assumption
         | |- inv _ syn => apply inv_modify; intros ? ?; assumption
         | |- inv _ (xdo _) => apply inv_modify; intros ? ?; assumption
         | |- inv _ (upd_sm _) => apply inv_modify; intros ? ?; assumption
         | |- inv _ (if ?b then _ else _) => destruct b
         end.

Lemma emit_char_cfg C V c : inv (cfg_fixed C V) (emit_char c).
Proof.
  unfold emit_char, emit_unicode_char.
  destruct (_ && _); [|cf_steps; match goal with e : exc |- _ => destruct e end; cf_steps].
  destruct (zget SHIFTED_CHARS c) as [b|]; cbv beta iota;
    destruct (zget CHAR_TO_KEY _); cf_steps.
Qed.

Lemma emit_output_cfg C V : forall a b, inv (cfg_fixed C V) (emit_output a b).
Proof.
  intros a. induction a as [data|k|k ms|l Hl] using action_ind'; intros b; simpl.
  - unfold emit_string_data, emit_string, one_char.
    destruct b; [destruct data|destruct data]; cf_steps; try apply emit_char_cfg.
    all: match goal with
         | |- inv _ (match ?x with _ => _ end) =>
             destruct x as [| | |[|? []]| |]; cf_steps; apply emit_char_cfg
         end.
  - unfold emit_key. cf_steps.
  - unfold emit_key. cf_steps.
  - generalize true. induction Hl as [|x l Hx Hl IH]; intros first.
    + apply inv_ret.
    + apply inv_bind; auto.
Qed.

Lemma handler_cfg C V now ev : inv (cfg_fixed C V) (handle_event now ev).
Proof.
  unfold handle_event, force_release_all, release_if_set, handle_idle,
    handle_trigger_pressed, handle_compose_pressed, handle_waiting_target, trigger_then_key,
    pass_through, replay_trigger_compose, cancel_compose.
  repeat (cf_steps;
    match goal with
    | |- inv _ (match ?x with _ => _ end) => destruct x
    | |- inv _ (let '(_, _) := ?x in _) => destruct x
    | |- inv _ (emit_output _ _) => apply emit_output_cfg
    end).
Qed.

Lemma check_timeout_cfg C V now : inv (cfg_fixed C V) (check_timeout now).
Proof.
  unfold check_timeout, cancel_compose, replay_trigger_compose. cf_steps.
  destruct (state (sm d0)); cf_steps.
Qed.

Lemma force_release_all_cfg C V : inv (cfg_fixed C V) force_release_all.
Proof.
  unfold force_release_all, cancel_compose, release_if_set.
  repeat (cf_steps; match goal with |- inv _ (match ?x with _ => _ end) => destruct x end).
Qed.

(** X8: as long as [reload_config] is not called, [valid_compose_keys]
    has no duplicates and holds exactly the compose keys of the entries of
    the sequence table. *)
Theorem valid_compose_keys_without_reload d :
  reachable_no_reload d ->
  NoDup (valid_compose_keys d)
  /\ forall k, In k (valid_compose_keys d) <->
               exists e, In e (sequences (config d)) /\ lk_compose (fst e) = k.
Proof.
  assert (Hcf : forall m : M unit, (forall C V, inv (cfg_fixed C V) m) -> forall d,
    config (snd (m d)) = config d /\ valid_compose_keys (snd (m d)) = valid_compose_keys d).
  { intros m Hm d0. exact (Hm (config d0) (valid_compose_keys d0) d0 (conj eq_refl eq_refl)). }
  induction 1 as [f xdo d Hinit | now ev d _ IH | now d _ IH | d _ IH | r d _ IH].
  - unfold daemon_init in Hinit.
    destruct (load_config f _) as [[e|u] d1]; [discriminate|].
    injection Hinit as <-. simpl. apply compute_valid_compose_keys_spec.
  - destruct (Hcf _ (fun C V => handler_cfg C V now ev) d) as [-> ->]. exact IH.
  - destruct (Hcf _ (fun C V => check_timeout_cfg C V now) d) as [-> ->]. exact IH.
  - destruct (Hcf _ force_release_all_cfg d) as [-> ->]. exact IH.
  - exact IH.
Qed.

(** ** Emitted output never leaves a key held *)

Lemma last_of_app {X} (f : out_ev -> option X) a b :
  last_of f (a ++ b) = match last_of f b with Some x => Some x | None => last_of f a end.
Proof.
  induction a as [|e a IH]; simpl.
  - destruct (last_of f b); reflexivity.
  - rewrite IH. destruct (last_of f b); reflexivity.
Qed.

Lemma nothing_held_nil : nothing_held [].
Proof. intros k. left. reflexivity. Qed.

Lemma nothing_held_app a b : nothing_held a -> nothing_held b -> nothing_held (a ++ b).
Proof.
  intros Ha Hb k. rewrite last_of_app. destruct (Hb k) as [E|E]; rewrite E; [apply Ha | right; reflexivity].
Qed.

Lemma released_ret {A} (a : A) : released (ret a).
Proof. intros d. exists []. rewrite app_nil_r. split; [reflexivity | apply nothing_held_nil]. Qed.

Lemma released_raise {A} e : released (@raise A e).
Proof. intros d. exists []. rewrite app_nil_r. split; [reflexivity | apply nothing_held_nil]. Qed.

Lemma released_bind {A B} (m : M A) (k : A -> M B) :
  released m -> (forall a, released (k a)) -> released (bind m k).
Proof.
  intros Hm Hk d. unfold bind. destruct (Hm d) as [s1 [E1 H1]].
  destruct (m d) as [[e|a] d1]; simpl in *.
  - exists s1. split; assumption.
  - destruct (Hk a d1) as [s2 [E2 H2]]. exists (s1 ++ s2).
    rewrite E2, E1, app_assoc. split; [reflexivity | apply nothing_held_app; assumption].
Qed.

Lemma released_get_bind {B} (k : daemon -> M B) : (forall d0, released (k d0)) -> released (bind get k).
Proof. intros Hk d. exact (Hk d d). Qed.

Lemma released_mfor {X} (l : list X) f : (forall x, released (f x)) -> released (mfor l f).
Proof.
  intros Hf. induction l as [|x l IH]; simpl; [apply released_ret|].
  apply released_bind; [apply Hf | intros; exact IH].
Qed.

Lemma released_modify_seg (f : daemon -> daemon) seg :
  (forall d, f d = set_uinput (uinput d ++ seg) d) -> nothing_held seg -> released (modify f).
Proof. intros Hf Hs d. exists seg. simpl. rewrite Hf. split; [reflexivity | exact Hs]. Qed.

Lemma released_try {A} (m : M A) catches (h : exc -> M A) :
  released m -> (forall e, released (h e)) -> released (try_except m catches h).
Proof.
  intros Hm Hh d. unfold try_except. destruct (Hm d) as [s1 [E1 H1]].
  destruct (m d) as [[e|a] d1]; simpl in *; [|exists s1; split; assumption].
  destruct (catches e); [|exists s1; split; assumption].
  destruct (Hh e d1) as [s2 [E2 H2]]. exists (s1 ++ s2).
  rewrite E2, E1, app_assoc. split; [reflexivity | apply nothing_held_app; assumption].
Qed.

Lemma released_modify_same (f : daemon -> daemon) :
  (forall d, uinput (f d) = uinput d) -> released (modify f).
Proof. intros Hf d. exists []. simpl. rewrite Hf, app_nil_r. split; [reflexivity | apply nothing_held_nil]. Qed.

(** An xdotool call writes no key code. *)
Lemma released_xdo_call o : (forall k, key_value k o = None) -> released (xdo_call o).
Proof.
  intros Ho. unfold xdo_call.
  destruct (match o with OXdoType c => c =? 0 | _ => false end); [apply released_raise|].
  apply released_get_bind. intros d0.
  destruct (xdo_results d0) as [|r rest]; [|destruct r]; cbv beta iota;
    (apply released_bind; [apply released_modify_same; reflexivity|]; intros _);
    try apply released_raise;
    (apply (released_modify_seg _ [o]); [intros; reflexivity|]);
    intros k; left; simpl; rewrite Ho; reflexivity.
Qed.

Lemma emit_char_released c : released (emit_char c).
Proof.
  unfold emit_char, emit_unicode_char.
  destruct (_ && _).
  - destruct (zget SHIFTED_CHARS c) as [b|]; cbv beta iota;
      destruct (zget CHAR_TO_KEY _) as [kc|]; try apply released_ret.
    + intros d. eexists. split.
      * cbn. rewrite <- !app_assoc. reflexivity.
      * intros k. cbn -[Z.eqb].
        destruct (kc =? k), (E.KEY_LEFTSHIFT =? k); auto.
    + intros d. eexists. split.
      * cbn. rewrite <- !app_assoc. reflexivity.
      * intros k. cbn -[Z.eqb].
        destruct (kc =? k); auto.
  - apply released_get_bind. intros d0.
    destruct (negb _); [apply released_ret|].
    apply released_bind; [|intros; apply released_modify_same; reflexivity].
    apply released_try; [|intros []; try apply released_ret; apply released_modify_same; reflexivity].
    destruct (py_isupper c);
      repeat (apply released_bind; [apply released_xdo_call; reflexivity | intros _]);
      apply released_xdo_call; reflexivity.
Qed.

Lemma mods_loop_run ms v d :
  mfor ms (fun m => write E.EV_KEY m v ;; syn) d
  = (inr tt, set_uinput (uinput d ++ mods_seg ms v) d).
Proof.
  revert d. induction ms as [|m ms IH]; intros d; simpl.
  - rewrite app_nil_r. destruct d; reflexivity.
  - unfold bind at 1. cbn. rewrite IH. cbn. rewrite <- !app_assoc. reflexivity.
Qed.

Lemma last_of_mods_seg ms v k :
  last_of (key_value k) (mods_seg ms v) = if mem k ms then Some v else None.
Proof.
  induction ms as [|m ms IH]; [reflexivity|].
  cbn [mods_seg flat_map app last_of]. fold (mods_seg ms v). rewrite IH.
  unfold mem. cbn [existsb]. fold (mem k ms).
  destruct (mem k ms); cbn; [rewrite orb_true_r; reflexivity|].
  rewrite orb_false_r. rewrite (Z.eqb_sym k m). destruct (m =? k); reflexivity.
Qed.

Lemma run_write_bind {B} t c v (k : unit -> M B) d :
  bind (write t c v) k d = k tt (set_uinput (uinput d ++ [OWrite t c v]) d).
Proof. reflexivity. Qed.

Lemma run_syn_bind {B} (k : unit -> M B) d :
  bind syn k d = k tt (set_uinput (uinput d ++ [OSyn]) d).
Proof. reflexivity. Qed.

Lemma run_mods_bind {B} ms v (k : unit -> M B) d :
  bind (mfor ms (fun m => write E.EV_KEY m v ;; syn)) k d
  = k tt (set_uinput (uinput d ++ mods_seg ms v) d).
Proof. unfold bind at 1. rewrite mods_loop_run. reflexivity. Qed.

Lemma emit_key_run k v ms d :
  emit_key k v ms d =
  (inr tt, set_uinput (uinput d ++ mods_seg (if is_empty ms then [] else ms) 1
                       ++ [OWrite E.EV_KEY k v; OSyn]
                       ++ mods_seg (if negb (is_empty ms) && (v =? 0) then ms else []) 0) d).
Proof.
  unfold emit_key. destruct (is_empty ms); cbn [negb andb].
  - rewrite bind_ret, run_write_bind, run_syn_bind.
    destruct d; cbn. rewrite <- !app_assoc. reflexivity.
  - rewrite run_mods_bind, run_write_bind, run_syn_bind. destruct (v =? 0).
    + rewrite mods_loop_run.
      destruct d; cbn. rewrite <- !app_assoc. reflexivity.
    + destruct d; cbn. rewrite <- !app_assoc. reflexivity.
Qed.

Lemma key_pair_released k ms : released (emit_key k 1 ms ;; emit_key k 0 ms).
Proof.
  intros d. unfold bind at 1. rewrite emit_key_run. cbn [fst snd]. rewrite emit_key_run.
  cbn [negb Z.eqb Pos.eqb andb]. eexists. split.
  - cbn [snd uinput set_uinput]. rewrite <- !app_assoc. reflexivity.
  - destruct (is_empty ms); cbn [negb andb].
    + intros x. rewrite !last_of_app. cbn -[Z.eqb].
      destruct (k =? x); auto.
    + intros x. rewrite !last_of_app, !last_of_mods_seg. cbn -[Z.eqb mem].
      destruct (mem x ms); auto. destruct (k =? x); auto.
Qed.

(** X9: [emit_output] only appends to the output, and what it appends,
    also when it raises part-way, leaves no key code pressed: for every key
    code the last write of it is a release (or there is none). This is
    about uinput key codes only: an xdotool Shift press may be left without
    its keyup when a later xdotool call fails. *)
Theorem emit_output_released a b d :
  exists seg, uinput (snd (emit_output a b d)) = uinput d ++ seg /\ nothing_held seg.
Proof.
  revert b d. change (forall b, released (emit_output a b)).
  induction a as [data|k|k ms|l Hl] using action_ind'; intros b; simpl.
  - unfold emit_string_data, emit_string, one_char.
    destruct b; [destruct data|destruct data];
      try apply released_raise; apply released_mfor; try apply emit_char_released;
      intros [| | |[|? []]| |]; first [apply emit_char_released | apply released_raise].
  - apply key_pair_released.
  - apply key_pair_released.
  - generalize true. induction Hl as [|x l Hx Hl IH]; intros first.
    + apply released_ret.
    + apply released_bind; auto.
Qed.

(** ** Typing a character presses the keys its target parses to *)

Lemma zget_In l k v : zget l k = Some v -> In (k, v) l.
Proof.
  unfold zget. induction l as [|[k' v'] l IH]; simpl; [discriminate|].
  destruct (k =? k') eqn:E.
  - intros H. injection H as <-. apply Z.eqb_eq in E. subst. left. reflexivity.
  - intros H. right. exact (IH H).
Qed.

Lemma char_tables_ascii c v :
  In (c, v) SHIFTED_CHARS \/ In (c, v) CHAR_TO_KEY -> c <= 127.
Proof.
  intros H. vm_compute in H.
  repeat match goal with
         | H : _ \/ _ |- _ => destruct H as [H|H]
         | H : (_, _) = (_, _) |- _ => injection H as <- <-
         | H : False |- _ => destruct H
         end; lia.
Qed.

Lemma run_syn d : syn d = (inr tt, set_uinput (uinput d ++ [OSyn]) d).
Proof. reflexivity. Qed.

Lemma run_ret {A} (a : A) d : ret a d = (inr a, d).
Proof. reflexivity. Qed.

Lemma bind_bind_run {A B C} (m : M A) (f : A -> M B) (g : B -> M C) d :
  bind (bind m f) g d = bind m (fun a => bind (f a) g) d.
Proof. unfold bind. destruct (m d) as [[e|a] d1]; reflexivity. Qed.

Lemma uinput_set_uinput u d : uinput (set_uinput u d) = u.
Proof. reflexivity. Qed.

Lemma set_uinput_twice u u' d : set_uinput u (set_uinput u' d) = set_uinput u d.
Proof. reflexivity. Qed.

(** Runs a straight sequence of writes, one step at a time. *)
Ltac run_writes :=
  repeat progress (rewrite ?bind_ret, ?run_ret, ?bind_bind_run, ?run_write_bind, ?run_syn_bind, ?run_syn,
                  ?uinput_set_uinput, ?set_uinput_twice);
  cbn [tap_seg]; rewrite <- !app_assoc; reflexivity.

(** X10: typing a single character that parses as a target key taps
    exactly those keys: [emit_char c] returns normally and writes the press
    and release of [ks] (with Shift around the key when [ks] has two keys),
    each followed by a SYN, and changes nothing else. *)
Theorem emit_char_taps_target c ks d :
  parse_target_key (JStr [c]) = inr ks ->
  emit_char c d = (inr tt, set_uinput (uinput d ++ tap_seg ks) d).
Proof.
  unfold parse_target_key.
  destruct (mem 43 [c] && _) eqn:Eplus.
  { assert (E43 : c = 43).
    { apply andb_true_iff in Eplus as [E43 _]. unfold mem in E43. cbn [existsb] in E43.
      rewrite orb_false_r in E43. apply Z.eqb_eq in E43. symmetry. exact E43. }
    subst c. vm_compute in Eplus. discriminate. }
  unfold emit_char.
  destruct (zget SHIFTED_CHARS c) as [b|] eqn:Es.
  - destruct (zget CHAR_TO_KEY b) as [k|] eqn:Ek; [|discriminate].
    intros H. injection H as <-.
    assert (Hc : c <= 127) by (apply (char_tables_ascii c b); left; apply zget_In; exact Es).
    apply Z.leb_le in Hc. rewrite Hc. cbn [is_some]. rewrite orb_true_r. cbn [andb].
    run_writes.
  - destruct (zget CHAR_TO_KEY c) as [k|] eqn:Ek; [|discriminate].
    intros H. injection H as <-.
    assert (Hc : c <= 127) by (apply (char_tables_ascii c k); right; apply zget_In; exact Ek).
    apply Z.leb_le in Hc. rewrite Hc. cbn [andb is_some orb].
    run_writes.
Qed.

Lemma u32_le_bytes (n : Z) : 0 <= n < 4294967296 -> u32_le (u32_bytes n) = n.
Proof.
  intros Hn. unfold u32_le, u32_bytes; cbn [fold_right].
  assert (E1 := Z.div_mod n 256 ltac:(lia)).
  assert (E2 := Z.div_mod (n / 256) 256 ltac:(lia)).
  assert (E3 := Z.div_mod (n / 65536) 256 ltac:(lia)).
  rewrite Z.div_div in E2 by lia. rewrite Z.div_div in E3 by lia.
  change (256 * 256) with 65536 in E2. change (65536 * 256) with 16777216 in E3.
  assert (H4 : 0 <= n / 16777216 < 256).
  { split; [apply Z.div_pos; lia | apply Z.div_lt_upper_bound; lia]. }
  rewrite (Z.mod_small (n / 16777216)) by exact H4. lia.
Qed.

Lemma lstrip_nul_zeros (p : nat) (l : list Z) : lstrip_nul (repeat 0 p ++ l) = lstrip_nul l.
Proof. induction p; simpl; auto. Qed.

Lemma rstrip_nul_padded (name : list Z) (p : nat) :
  match rev name with [] => true | b :: _ => negb (b =? 0) end = true ->
  rstrip_nul (name ++ repeat 0 p) = name.
Proof.
  intros H. unfold rstrip_nul. rewrite rev_app_distr, rev_repeat, lstrip_nul_zeros.
  destruct (rev name) as [|b r] eqn:E.
  - simpl. rewrite <- (rev_involutive name), E. reflexivity.
  - simpl. apply negb_true_iff in H. rewrite H, <- E. apply rev_involutive.
Qed.

Lemma skipn_app_length (pre rest : list Z) (k : nat) :
  skipn (List.length pre + k) (pre ++ rest) = skipn k rest.
Proof. induction pre; simpl; auto. Qed.

Lemma firstn_app_length (l r : list Z) : firstn (List.length l) (l ++ r) = l.
Proof. induction l; simpl; f_equal; auto. Qed.

Lemma length_encode_event (e : inotify_event) :
  List.length (encode_event e) = (16 + List.length (ie_name e) + ie_pad e)%nat.
Proof.
  unfold encode_event. simpl. rewrite length_app, repeat_length. lia.
Qed.

Lemma inotify_loop_tail (fuel : nat) (pre tail : list Z) :
  (List.length tail < 16)%nat ->
  inotify_loop fuel (pre ++ tail) (Z.of_nat (List.length pre)) = [].
Proof.
  intros Ht. destruct fuel; simpl; auto. rewrite length_app.
  destruct (Z.of_nat (List.length pre) <? Z.of_nat (List.length pre + List.length tail)); auto.
  replace (Z.of_nat (List.length pre + List.length tail) <? Z.of_nat (List.length pre) + 16)
    with true by (symmetry; apply Z.ltb_lt; lia).
  reflexivity.
Qed.

Lemma inotify_loop_encode (evs : list inotify_event) :
  forall (pre tail : list Z) (fuel : nat),
  forallb event_ok evs = true -> (List.length tail < 16)%nat ->
  (List.length evs <= fuel)%nat ->
  inotify_loop fuel (pre ++ List.concat (map encode_event evs) ++ tail) (Z.of_nat (List.length pre))
  = flat_map event_path evs.
Proof.
  induction evs as [|e evs IH]; intros pre tail fuel Hok Ht Hf.
  - simpl. apply inotify_loop_tail; exact Ht.
  - simpl in Hok. apply andb_true_iff in Hok as [He Hok].
    unfold event_ok in He. apply andb_true_iff in He as [Hname Hnl].
    apply Z.ltb_lt in Hnl.
    destruct fuel as [|fuel]; [simpl in Hf; lia|].
    set (nl := Z.of_nat (List.length (ie_name e) + ie_pad e)) in *.
    set (rest := List.concat (map encode_event evs) ++ tail).
    assert (Hdata : pre ++ List.concat (map encode_event (e :: evs)) ++ tail
                    = pre ++ encode_event e ++ rest).
    { unfold rest. simpl. rewrite app_assoc. reflexivity. }
    rewrite Hdata.
    assert (Hlen : List.length (pre ++ encode_event e ++ rest)
                   = (List.length pre + 16 + List.length (ie_name e) + ie_pad e
                      + List.length rest)%nat).
    { rewrite !length_app, length_encode_event. lia. }
    cbn [inotify_loop]. rewrite Hlen.
    replace (Z.of_nat (List.length pre) <? Z.of_nat (List.length pre + 16 + List.length (ie_name e)
              + ie_pad e + List.length rest)) with true by (symmetry; apply Z.ltb_lt; lia).
    replace (Z.of_nat (List.length pre + 16 + List.length (ie_name e) + ie_pad e
              + List.length rest) <? Z.of_nat (List.length pre) + 16)
      with false by (symmetry; apply Z.ltb_ge; lia).
    replace (Z.to_nat (Z.of_nat (List.length pre) + 12)) with (List.length pre + 12)%nat by lia.
    rewrite skipn_app_length.
    assert (Hhdr : u32_le (firstn 4 (skipn 12 (encode_event e ++ rest))) = nl).
    { unfold encode_event, u32_bytes. cbn [app skipn firstn]. exact (u32_le_bytes nl ltac:(lia)). }
    rewrite Hhdr.
    assert (Hnext : Z.of_nat (List.length pre) + 16 + nl
                    = Z.of_nat (List.length (pre ++ encode_event e))).
    { rewrite length_app, length_encode_event. unfold nl. lia. }
    assert (Hdata' : pre ++ encode_event e ++ rest = (pre ++ encode_event e) ++ rest).
    { apply app_assoc. }
    assert (IH' := IH (pre ++ encode_event e) tail fuel Hok Ht ltac:(simpl in Hf; lia)).
    fold rest in IH'. rewrite <- Hdata' in IH'.
    destruct (0 <? nl) eqn:Hpos.
    + rewrite Hnext, IH'.
      replace (Z.to_nat (Z.of_nat (List.length pre) + 16)) with (List.length pre + 16)%nat by lia.
      rewrite skipn_app_length.
      assert (Hname' : firstn (Z.to_nat nl) (skipn 16 (encode_event e ++ rest))
                       = ie_name e ++ repeat 0 (ie_pad e)).
      { unfold encode_event. cbn [app u32_bytes skipn].
        replace (Z.to_nat nl) with (List.length (ie_name e ++ repeat 0 (ie_pad e)))
          by (rewrite length_app, repeat_length; unfold nl; lia).
        rewrite ?app_assoc. apply firstn_app_length. }
      rewrite Hname', rstrip_nul_padded by exact Hname.
      unfold event_path. reflexivity.
    + apply Z.ltb_ge in Hpos.
      assert (Hn0 : ie_name e = []) by (destruct (ie_name e); [reflexivity | unfold nl in Hpos; simpl in Hpos; lia]).
      rewrite Hnext, IH'. cbn [flat_map]. unfold event_path. rewrite Hn0. reflexivity.
Qed.

Lemma length_encode_events (evs : list inotify_event) :
  (List.length evs <= List.length (List.concat (map encode_event evs)))%nat.
Proof.
  induction evs as [|e evs IH]; cbn [map List.concat List.length]; [lia|].
  rewrite length_app, length_encode_event. lia.
Qed.

(** X11: [_drain_inotify] recovers the events the kernel wrote: on a buffer
    holding a run of events (names without trailing NUL, padded with NULs)
    followed by fewer than 16 bytes, it returns, in order, the path
    [/dev/input/<name>] of every event whose decoded name starts with
    [event], and nothing for the others or for the trailing bytes. *)
Theorem drain_inotify_events (fd : Z) (evs : list inotify_event) (tail : list Z) :
  forallb event_ok evs = true -> (List.length tail < 16)%nat ->
  drain_inotify (Some fd) (Some (List.concat (map encode_event evs) ++ tail))
  = flat_map event_path evs.
Proof.
  intros Hok Ht. unfold drain_inotify.
  apply (inotify_loop_encode evs [] tail); auto.
  rewrite length_app. pose proof (length_encode_events evs). lia.
Qed.

Lemma drain_inotify_events_witness :
  (forallb event_ok
     [mkInotifyEvent 1 256 0 (py "event7") 10; mkInotifyEvent 1 256 0 (py "js0") 13;
      mkInotifyEvent 1 1024 0 [] 0] = true /\ (List.length [1; 0; 0] < 16)%nat) /\
  drain_inotify (Some 5)
    (Some (List.concat (map encode_event
       [mkInotifyEvent 1 256 0 (py "event7") 10; mkInotifyEvent 1 256 0 (py "js0") 13;
        mkInotifyEvent 1 1024 0 [] 0]) ++ [1; 0; 0]))
  = flat_map event_path
       [mkInotifyEvent 1 256 0 (py "event7") 10; mkInotifyEvent 1 256 0 (py "js0") 13;
        mkInotifyEvent 1 1024 0 [] 0].
Proof.
  split; [split; [reflexivity | simpl; lia] |].
  apply drain_inotify_events; [reflexivity | simpl; lia].
Defined.

(** ** Typing through xdotool closes the hotplug watch *)

Lemma bind_run {A B} (m : M A) (k : A -> M B) d :
  bind m k d = match m d with (inr a, d') => k a d' | (inl e, d') => (inl e, d') end.
Proof. reflexivity. Qed.

(** X12: when xdotool is available and [emit_unicode_char] returns
    normally (the xdotool calls succeeded, or failed with one of the
    caught exceptions), it sets [_inotify_fd] to [None], after which
    [_drain_inotify] returns no device path whatever the descriptor would
    have delivered. *)
Theorem emit_unicode_char_clears_inotify c d :
  xdotool_available d = true -> fst (emit_unicode_char c d) = inr tt ->
  inotify_fd (snd (emit_unicode_char c d)) = None
  /\ forall r, drain_inotify (inotify_fd (snd (emit_unicode_char c d))) r = [].
Proof.
  intros Hx. unfold emit_unicode_char. rewrite get_bind_run, Hx. cbn [negb].
  rewrite bind_run. destruct (try_except _ _ _ d) as [[e|[]] d1]; simpl; [discriminate|].
  intros _. split; reflexivity.
Qed.

(** X13: with xdotool available, a string output holding U+0000 raises
    [ValueError] out of [emit_output], shifted or not: the NUL reaches
    [emit_unicode_char], whose [subprocess.run] refuses an argument with an
    embedded null byte, and no handler catches [ValueError]. *)
Theorem emit_output_nul_raises b d :
  xdotool_available d = true -> fst (emit_output (AString (JStr [0])) b d) = inl ValueError.
Proof.
  destruct d as [c vck ts xa u m xr ifd]. cbn [xdotool_available]. intros ->.
  destruct b; vm_compute; reflexivity.
Qed.

(** X14: when the [xdotool type] call after [xdotool keydown shift] times
    out, [emit_unicode_char] catches the [TimeoutExpired] and returns
    normally, and the last xdotool Shift call it made is the keydown: the
    [keyup shift] is skipped. *)
Theorem emit_unicode_char_shift_left_down c d r :
  xdotool_available d = true -> py_isupper c = true -> c <> 0 ->
  xdo_results d = XOk :: XTimeout :: r ->
  fst (emit_unicode_char c d) = inr tt
  /\ uinput (snd (emit_unicode_char c d)) = uinput d ++ [OXdoKeydownShift].
Proof.
  destruct d as [cf vck ts xa u m xr ifd]. cbn [xdotool_available xdo_results uinput].
  intros -> Hu Hc ->. apply Z.eqb_neq in Hc.
  unfold emit_unicode_char. rewrite get_bind_run. cbn [xdotool_available negb]. rewrite Hu.
  unfold try_except, xdo_call. rewrite !bind_run. cbn -[Z.eqb]. rewrite Hc. cbn.
  split; reflexivity.
Qed.

(** Instances of the extra properties at the fixtures. *)

Lemma reachable_machine_wf_witness : current_trigger (sm daemon_de_alt) <> None.
Proof.
  apply (reachable_machine_wf daemon_de_alt). apply reach_event. apply (reach_init fs_de true).
  vm_compute. reflexivity.
Defined.


Lemma check_timeout_before_deadline_witness :
  check_timeout 999 daemon_de_alt = (inr tt, daemon_de_alt).
Proof.
  apply check_timeout_before_deadline; vm_compute; intros; first [reflexivity | discriminate].
Defined.

Lemma valid_compose_keys_without_reload_witness :
  NoDup (valid_compose_keys daemon_de_alt)
  /\ forall k, In k (valid_compose_keys daemon_de_alt) <->
               exists e, In e (sequences (config daemon_de_alt)) /\ lk_compose (fst e) = k.
Proof.
  apply valid_compose_keys_without_reload. apply nr_event. apply (nr_init fs_de true).
  vm_compute. reflexivity.
Defined.

Lemma emit_char_taps_target_witness :
  emit_char 65 daemon_de
  = (inr tt, set_uinput (uinput daemon_de ++ tap_seg [E.KEY_LEFTSHIFT; E.KEY_A]) daemon_de).
Proof. apply emit_char_taps_target. vm_compute. reflexivity. Defined.

Lemma emit_unicode_char_clears_inotify_witness :
  (xdotool_available (set_inotify_fd (Some 7) daemon_de) = true
   /\ fst (emit_unicode_char 228 (set_inotify_fd (Some 7) daemon_de)) = inr tt)
  /\ inotify_fd (snd (emit_unicode_char 228 (set_inotify_fd (Some 7) daemon_de))) = None
  /\ forall r, drain_inotify
       (inotify_fd (snd (emit_unicode_char 228 (set_inotify_fd (Some 7) daemon_de)))) r = [].
Proof.
  split; [split; vm_compute; reflexivity |].
  apply emit_unicode_char_clears_inotify; vm_compute; reflexivity.
Defined.

Lemma emit_output_nul_raises_witness :
  xdotool_available daemon_de = true
  /\ fst (emit_output (AString (JStr [0])) true daemon_de) = inl ValueError.
Proof. split; [vm_compute; reflexivity | apply emit_output_nul_raises; vm_compute; reflexivity]. Defined.

Lemma emit_unicode_char_shift_left_down_witness :
  (xdotool_available (set_xdo_results [XOk; XTimeout] daemon_de) = true /\ py_isupper 196 = true
   /\ 196 <> 0 /\ xdo_results (set_xdo_results [XOk; XTimeout] daemon_de) = XOk :: XTimeout :: [])
  /\ fst (emit_unicode_char 196 (set_xdo_results [XOk; XTimeout] daemon_de)) = inr tt
  /\ uinput (snd (emit_unicode_char 196 (set_xdo_results [XOk; XTimeout] daemon_de)))
     = uinput (set_xdo_results [XOk; XTimeout] daemon_de) ++ [OXdoKeydownShift].
Proof.
  split; [repeat split; first [vm_compute; reflexivity | lia] |].
  apply (emit_unicode_char_shift_left_down 196 _ []); first [vm_compute; reflexivity | lia].
Defined.
